(** * gptfunction: the GPTFunction adapter and its schema generator

    A shallow embedding of [src/gptfunction/GPTFunction.py].  The Python
    objects the module inspects (return values, type hints, ordered
    dictionaries, the wrapped function object) are modelled as data, the
    exceptions as an error monad, and the two effects of the module (the
    in-place update of the function's [__annotations__] dictionary and the
    warnings sent to [logging]) as explicit state. *)

From Stdlib Require Import String Ascii List ZArith Bool Lia DecimalString.
Import ListNotations.
Open Scope string_scope.
Open Scope list_scope.

Set Implicit Arguments.
Set Warnings "-register-all".

(** ** Python values *)

(** What [getattr(x, "__str__")] finds on an instance of a user class. *)
Inductive str_attr : Type :=
| StrTruthy
    (* a true object, as the bound method every object inherits *)
| StrFalsy
    (* a false object: the instance or its class binds [__str__] to [None],
       or to a callable whose truth value is false *)
| StrUnreachable.
    (* attribute lookup itself raises [AttributeError] *)

(** What [str(x)] does on an instance of a user class.  It goes through the
    type of [x] and not through [getattr], so it is independent of what
    [getattr(x, "__str__")] finds: after [x.__str__ = None] on an instance
    the attribute is false and [str(x)] still returns text. *)
Inductive str_outcome : Type :=
| Shown (text : string)
| StrRaises (what : string).

(** Values a wrapped callable may return, and that may appear inside a
    type hint (the choices of a [Literal], the values of [Enum] members). *)
Inductive value : Type :=
| VNone
| VStr (s : string)
| VInt (z : Z)
| VBool (b : bool)
| VInstance (cls : string) (attr : str_attr) (shown : str_outcome).

(** Objects found as values of [__annotations__]. *)
Inductive pyobj : Type :=
| Obj (v : value)
    (* an object that is not a type, e.g. a [Literal] choice or a string hint *)
| Class (name : string)
    (* a class that does not derive from [Enum]: [str], [int], [bool], ... *)
| EnumClass (name : string) (members : list (string * value))
    (* [Enum] or a subclass, with its members (name, value) in definition
       order, which is the order iteration over the class yields *)
| GenericAlias (origin : string) (args : list pyobj).
    (* a subscripted typing form; [args] is its [__args__] *)

Definition str_t : pyobj := Class "str".
Definition int_t : pyobj := Class "int".
Definition float_t : pyobj := Class "float".

Definition Literal (choices : list string) : pyobj :=
  GenericAlias "Literal" (map (fun s => Obj (VStr s)) choices).

(** ** Exceptions and the error monad *)

Inductive exn : Type :=
| ValueError (text : string) (interpolated : pyobj)
    (* the message is a formatted string: its text and the object it formats *)
| KeyError (key : string)
| AttributeError (attribute : string)
| TypeError (text : string)
| ParseError (text : string)
| Exception (text : string).

Inductive result (A : Type) : Type :=
| Ok (a : A)
| Raise (e : exn).
Arguments Ok {A} a.
Arguments Raise {A} e.

Definition bind {A B : Type} (m : result A) (k : A -> result B) : result B :=
  match m with
  | Ok a => k a
  | Raise e => Raise e
  end.

Notation "x <- m ;; k" := (bind m (fun x => k))
  (at level 61, m at next level, right associativity).

Definition is_ok {A : Type} (m : result A) : bool :=
  match m with Ok _ => true | Raise _ => false end.

(** ** Insertion-ordered dictionaries with string keys *)

Definition dict (A : Type) : Type := list (string * A).

Section Dict.
Context {A : Type}.

Definition dict_keys (d : dict A) : list string := map fst d.

Fixpoint dict_get (k : string) (d : dict A) : option A :=
  match d with
  | [] => None
  | (k', v) :: d' => if String.eqb k k' then Some v else dict_get k d'
  end.

(** [k in d] *)
Definition dict_contains (k : string) (d : dict A) : bool :=
  match dict_get k d with Some _ => true | None => false end.

(** [d[k]] *)
Definition dict_getitem (k : string) (d : dict A) : result A :=
  match dict_get k d with
  | Some v => Ok v
  | None => Raise (KeyError k)
  end.

(** [d[k] = v]: an existing key keeps its position, a new key goes last. *)
Fixpoint dict_set (k : string) (v : A) (d : dict A) : dict A :=
  match d with
  | [] => [(k, v)]
  | (k', v') :: d' =>
      if String.eqb k k' then (k', v) :: d' else (k', v') :: dict_set k v d'
  end.

(** [del d[k]] *)
Definition dict_del (k : string) (d : dict A) : dict A :=
  filter (fun kv => negb (String.eqb k (fst kv))) d.

(** [d |= e] and [d | e]: the entries of [e] are set in order. *)
Definition dict_update (d e : dict A) : dict A :=
  fold_left (fun acc kv => dict_set (fst kv) (snd kv) acc) e d.

(** A well-formed dictionary holds each key once. *)
Definition dict_wf (d : dict A) : Prop := NoDup (dict_keys d).
End Dict.

(** ** Textual representation of values *)

Definition repr_int (z : Z) : string := NilZero.string_of_int (Z.to_int z).

(** The number of decimal digits of an integer, sign left out. *)
Definition decimal_digits (z : Z) : nat := String.length (repr_int (Z.abs z)).

(** [sys.int_max_str_digits], at its default: CPython refuses to convert an
    integer of more decimal digits to text. *)
Definition int_max_str_digits : nat := 4300.

Definition exceeds_the_limit : string :=
  "Exceeds the limit (%d digits) for integer string conversion; use sys.set_int_max_str_digits() to increase the limit".

(** [getattr(x, "__str__")], reduced to what [__call__] tests: its truth
    value. *)
Definition getattr__str__ (x : value) : result bool :=
  match x with
  | VInstance _ StrFalsy _ => Ok false
  | VInstance _ StrUnreachable _ => Raise (AttributeError "__str__")
  | _ => Ok true
  end.

(** [str(x)] *)
Definition str (x : value) : result string :=
  match x with
  | VNone => Ok "None"
  | VStr s => Ok s
  | VInt z =>
      if Nat.ltb int_max_str_digits (decimal_digits z)
      then Raise (ValueError exceeds_the_limit
                    (Obj (VInt (Z.of_nat int_max_str_digits))))
      else Ok (repr_int z)
  | VBool true => Ok "True"
  | VBool false => Ok "False"
  | VInstance _ _ (Shown s) => Ok s
  | VInstance _ _ (StrRaises what) => Raise (Exception what)
  end.

(** [isinstance(x, str)] *)
Definition isinstance_str (x : value) : bool :=
  match x with VStr _ => true | _ => false end.

(** ** The schema objects *)

(** The dictionaries [schema] builds hold strings, [None], lists of hint
    arguments and further dictionaries. *)
Inductive json : Type :=
| JNone
| JStr (s : string)
| JList (items : list pyobj)
| JDict (entries : dict json).

(** ** The documentation parser (an external package) *)

Module docstring_parser.
Record DocstringParam : Type :=
  { arg_name : string; description : string }.

Record Docstring : Type :=
  { short_description : option string; params : list DocstringParam }.
End docstring_parser.

(** ** Function objects *)

Record function : Type :=
  { __name__ : string;
    __doc__ : option string;
    __annotations__ : dict pyobj;
    (* what calling the function with [*args, **kwargs] does *)
    __code__ : list value -> dict value -> result value }.

Definition set__annotations__ (f : function) (d : dict pyobj) : function :=
  {| __name__ := __name__ f;
     __doc__ := __doc__ f;
     __annotations__ := d;
     __code__ := __code__ f |}.

(** ** class GPTFunction *)

Module _FunctionParam.
Record t : Type :=
  mk { name : string; typing : pyobj; description : string }.
End _FunctionParam.

Record GPTFunction : Type := { func : function }.

(** [self.func] is a reference: the function object is shared with whoever
    wrapped it, so the state threaded through the methods is that object
    together with the records handed to [logging]. *)
Record state : Type :=
  { self : GPTFunction; logging : list string }.

Definition M (A : Type) : Type := state -> result A * state.

Definition __init__ (f : function) : GPTFunction := {| func := f |}.

(** [param_type == cls] for one of the builtin classes. *)
Definition is_class (param_type : pyobj) (cls : string) : bool :=
  match param_type with
  | Class n => String.eqb n cls
  | _ => false
  end.

(** [typing.get_args] *)
Definition get_args (tp : pyobj) : list pyobj :=
  match tp with
  | GenericAlias _ args => args
  | _ => []
  end.

Definition unexpected_type : string :=
  "Unexpected type found while parsing parameter type: ".

Definition _parse_param_type (param_type : pyobj) : result (dict json) :=
  if is_class param_type "str" then Ok [("type", JStr "string")]
  else if is_class param_type "int" then Ok [("type", JStr "int")]
  else if is_class param_type "float" then Ok [("type", JStr "float")]
  else
    match get_args param_type with
    | (_ :: _) as types => Ok [("type", JStr "string"); ("enum", JList types)]
    | [] =>
        match param_type with
        | EnumClass _ members =>
            Ok [("type", JStr "string");
                ("enum", JList (map (fun e => Obj (snd e)) members))]
        | _ => Raise (ValueError unexpected_type param_type)
        end
    end.

(** The loop of [_parse_params], with [schema_params] as built so far. *)
Fixpoint _parse_params_loop (params : list _FunctionParam.t)
    (schema_params : dict json) : result (dict json) :=
  match params with
  | [] => Ok schema_params
  | param :: rest =>
      fragment <- _parse_param_type (_FunctionParam.typing param) ;;
      _parse_params_loop rest
        (dict_update schema_params
           [(_FunctionParam.name param,
             JDict (dict_update fragment
                      [("description",
                        JStr (_FunctionParam.description param))]))])
  end.

Definition _parse_params (params : list _FunctionParam.t) : result json :=
  schema_params <- _parse_params_loop params [] ;;
  Ok (JDict [("type", JStr "object"); ("properties", JDict schema_params)]).

Definition no_docstring_warning (key : string) : string :=
  "Function param " ++ key ++
  " has no docstring description. Add a docstring description for more accurate use by GPT.".

(** [{p.arg_name: p for p in docstring_params}] *)
Definition key_by_arg_name
    (docstring_params : list docstring_parser.DocstringParam)
  : dict docstring_parser.DocstringParam :=
  fold_left (fun acc p => dict_set (docstring_parser.arg_name p) p acc)
    docstring_params [].

(** The loop of [_create_function_params]: the records appended so far and
    the warnings logged so far are carried along; the warnings survive an
    exception. *)
Fixpoint _create_function_params_loop (keys : list string)
    (annotations : dict pyobj)
    (keyed_docstring_params : dict docstring_parser.DocstringParam)
    (function_params : list _FunctionParam.t) (warned : list string)
  : list string * result (list _FunctionParam.t) :=
  match keys with
  | [] => (warned, Ok function_params)
  | key :: rest =>
      let (desc, warned') :=
        match dict_get key keyed_docstring_params with
        | Some p => (docstring_parser.description p, warned)
        | None => ("", warned ++ [no_docstring_warning key])
        end in
      match dict_getitem key annotations with
      | Ok tp =>
          _create_function_params_loop rest annotations keyed_docstring_params
            (function_params ++ [_FunctionParam.mk key tp desc]) warned'
      | Raise e => (warned', Raise e)
      end
  end.

(** What a call of [_create_function_params] leaves behind: the dictionary
    it was handed (the caller's own object, updated in place by [del]), the
    warnings it logged, and its return value. *)
Record extraction : Type :=
  { annotations_after : dict pyobj;
    warnings : list string;
    returned : result (list _FunctionParam.t) }.

Definition _create_function_params (annotations : dict pyobj)
    (docstring_params : list docstring_parser.DocstringParam) : extraction :=
  let annotations :=
    if dict_contains "return" annotations
    then dict_del "return" annotations
    else annotations in
  let keyed_docstring_params := key_by_arg_name docstring_params in
  let (warned, function_params) :=
    _create_function_params_loop (dict_keys annotations) annotations
      keyed_docstring_params [] [] in
  {| annotations_after := annotations;
     warnings := warned;
     returned := function_params |}.

Definition json_of_option (o : option string) : json :=
  match o with
  | Some s => JStr s
  | None => JNone
  end.

(** Calling the adapter: an exception of the wrapped function propagates, a
    string result is handed back as it is, and any other result goes
    through the test on [getattr(result, "__str__")]. *)
Definition __call__ (args : list value) (kwargs : dict value) : M string :=
  fun st =>
    (r <- __code__ (func (self st)) args kwargs ;;
     match r with
     | VStr s => Ok s
     | _ =>
         has_str <- getattr__str__ r ;;
         if has_str then str r else Ok ""
     end,
     st).

Definition name : M string :=
  fun st => (Ok (__name__ (func (self st))), st).

Section Methods.
(** [docstring_parser.parse], which may raise its [ParseError]. *)
Variable parse : option string -> result docstring_parser.Docstring.

(** [schema] hands [self.func.__annotations__] itself to the extractor, so
    the dictionary the extractor leaves is the one the function holds from
    then on, whether or not the type mapper raises afterwards. *)

Definition schema : M json :=
  fun st =>
    let f := func (self st) in
    match parse (__doc__ f) with
    | Raise e => (Raise e, st)
    | Ok docstring =>
        let x := _create_function_params (__annotations__ f)
                   (docstring_parser.params docstring) in
        (function_params <- returned x ;;
         parameters <- _parse_params function_params ;;
         Ok (JDict
               [("type", JStr "function");
                ("function",
                 JDict [("name", JStr (__name__ f));
                        ("description",
                         json_of_option
                           (docstring_parser.short_description docstring));
                        ("parameters", parameters)])]),
         {| self := {| func := set__annotations__ f (annotations_after x) |};
            logging := logging st ++ warnings x |})
    end.

Definition description : M (option string) :=
  fun st =>
    (docstring <- parse (__doc__ (func (self st))) ;;
     Ok (docstring_parser.short_description docstring),
     st).
End Methods.

(** The decorator. *)
Definition gptfunction (f : function) : GPTFunction := __init__ f.

(** ** Reading a descriptor *)

(** [j[k]] on a dictionary. *)
Definition json_get (k : string) (j : json) : option json :=
  match j with
  | JDict entries => dict_get k entries
  | _ => None
  end.

(** [descriptor["function"]["parameters"]["properties"]] *)
Definition properties_of (descriptor : json) : option (dict json) :=
  match json_get "function" descriptor with
  | Some fn =>
      match json_get "parameters" fn with
      | Some ps =>
          match json_get "properties" ps with
          | Some (JDict props) => Some props
          | _ => None
          end
      | None => None
      end
  | None => None
  end.

(** The types the class docstring allows for parameters: [str], [int],
    [float], [typing.Literal], and [Enum] subclasses with string values. *)
Definition documented_type (tp : pyobj) : bool :=
  match tp with
  | Class n => String.eqb n "str" || String.eqb n "int" || String.eqb n "float"
  | GenericAlias origin _ => String.eqb origin "Literal"
  | EnumClass _ members =>
      forallb (fun m => isinstance_str (snd m)) members
  | Obj _ => false
  end.

(** ** The functions of the test suite *)

(** A stand-in for the parser: it knows the docstrings of its table. *)
Definition parse_known (known : dict docstring_parser.Docstring)
  : option string -> result docstring_parser.Docstring :=
  fun doc =>
    match doc with
    | None =>
        Ok {| docstring_parser.short_description := None;
              docstring_parser.params := [] |}
    | Some text =>
        match dict_get text known with
        | Some d => Ok d
        | None => Raise (ParseError text)
        end
    end.

Definition documented (short : string) (ps : list (string * string))
  : docstring_parser.Docstring :=
  {| docstring_parser.short_description := Some short;
     docstring_parser.params :=
       map (fun p => {| docstring_parser.arg_name := fst p;
                        docstring_parser.description := snd p |}) ps |}.

(** [def my_func(a: int, b: str) -> int: return 5] of [TestDecorator]. *)
Definition my_func : function :=
  {| __name__ := "my_func";
     __doc__ := Some "This is my func.";
     __annotations__ := [("a", int_t); ("b", str_t); ("return", int_t)];
     __code__ := fun _ _ => Ok (VInt 5) |}.

Definition my_docs : dict docstring_parser.Docstring :=
  [("This is my func.",
    documented "This is my func." [("a", "this is a."); ("b", "this is b.")]);
   ("Lol no docs for you", documented "Lol no docs for you" []);
   ("b before a",
    documented "b before a" [("b", "this is b."); ("a", "this is a.")])].

Definition start (f : function) : state :=
  {| self := gptfunction f; logging := [] |}.

(** A function that returns nothing. *)
Definition output_user : function :=
  {| __name__ := "output_user";
     __doc__ := Some "Lol no docs for you";
     __annotations__ := [("name", str_t); ("age", int_t); ("return", Obj VNone)];
     __code__ := fun _ _ => Ok VNone |}.

(** [def f(a: List[int]) -> None] *)
Definition takes_list : function :=
  {| __name__ := "f";
     __doc__ := None;
     __annotations__ :=
       [("a", GenericAlias "List" [int_t]); ("return", Obj VNone)];
     __code__ := fun _ _ => Ok VNone |}.

(** [class Empty(Enum): pass] and [def g(choice: Empty)] *)
Definition takes_empty_enum : function :=
  {| __name__ := "g";
     __doc__ := None;
     __annotations__ := [("choice", EnumClass "Empty" [])];
     __code__ := fun _ _ => Ok VNone |}.

(** [def h(flag: bool)] *)
Definition takes_bool : function :=
  {| __name__ := "h";
     __doc__ := None;
     __annotations__ := [("flag", Class "bool")];
     __code__ := fun _ _ => Ok VNone |}.

(** [my_func] again, documented with [b] first. *)
Definition documented_backwards : function :=
  {| __name__ := "my_func";
     __doc__ := Some "b before a";
     __annotations__ := [("a", int_t); ("b", str_t); ("return", int_t)];
     __code__ := fun _ _ => Ok (VInt 5) |}.

(** [def g(choice: Literal["x", "y"])] *)
Definition takes_literal : function :=
  {| __name__ := "g";
     __doc__ := None;
     __annotations__ := [("choice", Literal ["x"; "y"])];
     __code__ := fun _ _ => Ok VNone |}.

(** The descriptor [TestDecorator] expects for [my_func], under the given
    short description. *)
Definition expected_schema (short : string) : json :=
  JDict
    [("type", JStr "function");
     ("function",
      JDict
        [("name", JStr "my_func");
         ("description", JStr short);
         ("parameters",
          JDict
            [("type", JStr "object");
             ("properties",
              JDict
                [("a", JDict [("type", JStr "int");
                              ("description", JStr "this is a.")]);
                 ("b", JDict [("type", JStr "string");
                              ("description", JStr "this is b.")])])])])].

(** ** Vocabulary of the statements *)

(** The description and the warning the extractor derives for a key. *)
Definition describe (keyed : dict docstring_parser.DocstringParam)
    (key : string) : string :=
  match dict_get key keyed with
  | Some p => docstring_parser.description p
  | None => ""
  end.

Definition warn_about (keyed : dict docstring_parser.DocstringParam)
    (key : string) : list string :=
  match dict_get key keyed with
  | Some _ => []
  | None => [no_docstring_warning key]
  end.

(** What the extractor promises about one record. *)
Definition extracted_from (annotations : dict pyobj)
    (keyed : dict docstring_parser.DocstringParam)
    (r : _FunctionParam.t) : Prop :=
  dict_get (_FunctionParam.name r) annotations = Some (_FunctionParam.typing r)
  /\ _FunctionParam.description r = describe keyed (_FunctionParam.name r).

(** The entry [_parse_params] stores for one record. *)
Definition property_of (fragment : dict json) (r : _FunctionParam.t) : json :=
  JDict (dict_update fragment
           [("description", JStr (_FunctionParam.description r))]).

Definition mappable (r : _FunctionParam.t) : Prop :=
  is_ok (_parse_param_type (_FunctionParam.typing r)) = true.

(** The descriptor [schema] wraps around the [parameters] object. *)
Definition descriptor (f : function) (docstring : docstring_parser.Docstring)
    (parameters : json) : json :=
  JDict [("type", JStr "function");
         ("function",
          JDict [("name", JStr (__name__ f));
                 ("description",
                  json_of_option
                    (docstring_parser.short_description docstring));
                 ("parameters", parameters)])].

(** The state a completed extraction leaves. *)
Definition extracted (st : state) (docstring : docstring_parser.Docstring)
  : state :=
  let f := func (self st) in
  {| self :=
       {| func := set__annotations__ f (dict_del "return" (__annotations__ f)) |};
     logging :=
       logging st ++
       flat_map (warn_about (key_by_arg_name (docstring_parser.params docstring)))
         (dict_keys (dict_del "return" (__annotations__ f))) |}.

(** The keys the extractor iterates over: the annotated parameters, in
    declaration order. *)
Definition declared_parameters (annotations : dict pyobj) : list string :=
  filter (fun k => negb (String.eqb "return" k)) (dict_keys annotations).

(** No documentation entry is named [key]. *)
Definition undocumented
    (docstring_params : list docstring_parser.DocstringParam)
    (key : string) : bool :=
  negb (existsb (fun p => String.eqb (docstring_parser.arg_name p) key)
          docstring_params).

(** [def no_param_function() -> None] of [TestCreateFunctionParams]. *)
Definition no_param_function : function :=
  {| __name__ := "no_param_function";
     __doc__ := None;
     __annotations__ := [("return", Obj VNone)];
     __code__ := fun _ _ => Ok VNone |}.

(** [def three(a: int, b: bool, c: dict) -> dict], undocumented. *)
Definition three : function :=
  {| __name__ := "three";
     __doc__ := None;
     __annotations__ :=
       [("a", int_t); ("b", Class "bool"); ("c", Class "dict");
        ("return", Class "dict")];
     __code__ := fun _ _ => Ok VNone |}.

(** [my_func] with another return hint. *)
Definition my_func_returning_dict : function :=
  {| __name__ := "my_func";
     __doc__ := Some "This is my func.";
     __annotations__ := [("a", int_t); ("b", str_t); ("return", Class "dict")];
     __code__ := fun _ _ => Ok (VInt 5) |}.

(** A function that raises, and one whose result cannot be shown. *)
Definition raising : function :=
  {| __name__ := "raising";
     __doc__ := None;
     __annotations__ := [];
     __code__ := fun _ _ => Raise (Exception "boom") |}.

Definition returns_unshowable : function :=
  {| __name__ := "returns_unshowable";
     __doc__ := None;
     __annotations__ := [];
     __code__ :=
       fun _ _ => Ok (VInstance "Broken" StrTruthy (StrRaises "__str__")) |}.

(** A function whose result [p] of class [Point] was given [p.__str__ = None]:
    the attribute is false, and [str(p)] is the text of the class. *)
Definition returns_masked : function :=
  {| __name__ := "returns_masked";
     __doc__ := None;
     __annotations__ := [];
     __code__ :=
       fun _ _ => Ok (VInstance "Point" StrFalsy (Shown "Point(1, 2)")) |}.

(** * Facts about dictionaries *)

Section DictFacts.
Context {A : Type}.
Implicit Types (d : dict A) (k : string) (v : A).

Lemma dict_get_In_keys k d :
  In k (dict_keys d) -> exists v, dict_get k d = Some v.
Proof.
  induction d as [|[k' v'] d IH]; simpl; [tauto|].
  intros [->|Hin].
  - rewrite String.eqb_refl. eauto.
  - destruct (String.eqb k k'); eauto.
Qed.

Lemma dict_get_None k d :
  dict_get k d = None <-> ~ In k (dict_keys d).
Proof.
  induction d as [|[k' v'] d IH]; simpl; [tauto|].
  destruct (String.eqb_spec k k') as [->|Hne].
  - split; [discriminate|]. intros H. exfalso. apply H. now left.
  - rewrite IH. split.
    + intros H [Heq|Hin]; [congruence|tauto].
    + tauto.
Qed.

Lemma dict_get_None_inv k d : dict_get k d <> None -> In k (dict_keys d).
Proof.
  intros H. destruct (in_dec String.string_dec k (dict_keys d)) as [Hin|Hout];
    [assumption|].
  now apply dict_get_None in Hout.
Qed.

Lemma dict_get_set k k' v d :
  dict_get k (dict_set k' v d) =
  if String.eqb k k' then Some v else dict_get k d.
Proof.
  induction d as [|[k0 v0] d IH]; simpl.
  - now destruct (String.eqb k k').
  - destruct (String.eqb_spec k' k0) as [->|Hne]; simpl.
    + now destruct (String.eqb k k0).
    + rewrite IH.
      destruct (String.eqb_spec k k0) as [->|Hne']; [|reflexivity].
      destruct (String.eqb_spec k0 k'); congruence.
Qed.

Lemma dict_keys_set_new k v d :
  ~ In k (dict_keys d) -> dict_keys (dict_set k v d) = dict_keys d ++ [k].
Proof.
  induction d as [|[k0 v0] d IH]; simpl; [reflexivity|].
  intros Hnot.
  destruct (String.eqb_spec k k0) as [->|Hne]; [tauto|].
  simpl. f_equal. apply IH. tauto.
Qed.

Lemma dict_keys_del k d :
  dict_keys (dict_del k d) =
  filter (fun x => negb (String.eqb k x)) (dict_keys d).
Proof.
  induction d as [|[k0 v0] d IH]; simpl; [reflexivity|].
  destruct (String.eqb k k0); simpl; now rewrite <- IH.
Qed.

Lemma dict_get_del_same k d : dict_get k (dict_del k d) = None.
Proof.
  induction d as [|[k0 v0] d IH]; simpl; [reflexivity|].
  destruct (String.eqb k k0) eqn:E; simpl; [assumption|].
  now rewrite E.
Qed.

Lemma dict_get_del_other k k' d :
  k' <> k -> dict_get k' (dict_del k d) = dict_get k' d.
Proof.
  intros Hne.
  induction d as [|[k0 v0] d IH]; simpl; [reflexivity|].
  destruct (String.eqb_spec k k0) as [<-|Hk]; simpl.
  - destruct (String.eqb_spec k' k); [congruence|assumption].
  - now rewrite IH.
Qed.

Lemma dict_del_absent k d : dict_get k d = None -> dict_del k d = d.
Proof.
  induction d as [|[k0 v0] d IH]; simpl; [reflexivity|].
  destruct (String.eqb k k0); [discriminate|].
  intros H. simpl. f_equal. now apply IH.
Qed.

Lemma dict_del_idem k d : dict_del k (dict_del k d) = dict_del k d.
Proof. apply dict_del_absent, dict_get_del_same. Qed.

(** The test [if k in d: del d[k]] is a plain deletion. *)
Lemma dict_del_guarded k d :
  (if dict_contains k d then dict_del k d else d) = dict_del k d.
Proof.
  unfold dict_contains.
  destruct (dict_get k d) eqn:E; [reflexivity|].
  symmetry. now apply dict_del_absent.
Qed.

End DictFacts.

(** * The type mapper *)

Lemma _parse_param_type_raises tp e :
  _parse_param_type tp = Raise e -> e = ValueError unexpected_type tp.
Proof.
  unfold _parse_param_type.
  destruct (is_class tp "str"); [discriminate|].
  destruct (is_class tp "int"); [discriminate|].
  destruct (is_class tp "float"); [discriminate|].
  destruct (get_args tp); [|discriminate].
  destruct tp; intros H; inversion H; reflexivity.
Qed.

(** * The parameter extractor *)

Lemma _create_function_params_loop_spec keyed annotations :
  forall keys function_params warned,
    (forall k, In k keys -> In k (dict_keys annotations)) ->
    exists records,
      _create_function_params_loop keys annotations keyed function_params warned
      = (warned ++ flat_map (warn_about keyed) keys,
         Ok (function_params ++ records))
      /\ map _FunctionParam.name records = keys
      /\ Forall (extracted_from annotations keyed) records.
Proof.
  induction keys as [|key rest IH]; intros acc warned Hin; simpl.
  - exists []. now rewrite !app_nil_r.
  - destruct (dict_get_In_keys key annotations) as [tp Htp];
      [apply Hin; now left|].
    unfold dict_getitem. rewrite Htp.
    set (desc := describe keyed key).
    assert (Hstep :
      (let (desc0, warned') :=
         match dict_get key keyed with
         | Some p => (docstring_parser.description p, warned)
         | None => ("", warned ++ [no_docstring_warning key])
         end in
       _create_function_params_loop rest annotations keyed
         (acc ++ [_FunctionParam.mk key tp desc0]) warned')
      = _create_function_params_loop rest annotations keyed
          (acc ++ [_FunctionParam.mk key tp desc])
          (warned ++ warn_about keyed key)).
    { unfold desc, describe, warn_about.
      destruct (dict_get key keyed); [now rewrite app_nil_r|reflexivity]. }
    destruct (IH (acc ++ [_FunctionParam.mk key tp desc])
                (warned ++ warn_about keyed key)) as (records & Hrun & Hnames & Hall).
    { intros k Hk. apply Hin. now right. }
    exists (_FunctionParam.mk key tp desc :: records).
    split; [|split].
    + revert Hstep.
      destruct (dict_get key keyed); intros Hstep; rewrite Hstep, Hrun;
        now rewrite <- !app_assoc.
    + simpl. now rewrite Hnames.
    + constructor; [|assumption]. split; [exact Htp|reflexivity].
Qed.

Lemma _create_function_params_spec annotations docstring_params :
  let rest := dict_del "return" annotations in
  let keyed := key_by_arg_name docstring_params in
  exists records,
    _create_function_params annotations docstring_params
    = {| annotations_after := rest;
         warnings := flat_map (warn_about keyed) (dict_keys rest);
         returned := Ok records |}
    /\ map _FunctionParam.name records = dict_keys rest
    /\ Forall (extracted_from rest keyed) records.
Proof.
  intros rest keyed.
  destruct (_create_function_params_loop_spec keyed rest (dict_keys rest) [] [])
    as (records & Hrun & Hnames & Hall); [auto|].
  exists records. split; [|split; assumption].
  unfold _create_function_params.
  rewrite dict_del_guarded. fold rest keyed. now rewrite Hrun.
Qed.

(** A second extraction from the dictionary the first one left behind does
    what the first one did. *)
Lemma _create_function_params_again annotations docstring_params :
  _create_function_params
    (annotations_after (_create_function_params annotations docstring_params))
    docstring_params
  = _create_function_params annotations docstring_params.
Proof.
  destruct (_create_function_params_spec annotations docstring_params)
    as (records & Hrun & _).
  rewrite Hrun at 1. simpl.
  unfold _create_function_params.
  now rewrite !dict_del_guarded, dict_del_idem.
Qed.

Lemma key_by_arg_name_None docstring_params key :
  dict_get key (key_by_arg_name docstring_params) = None <->
  (forall p, In p docstring_params -> docstring_parser.arg_name p <> key).
Proof.
  unfold key_by_arg_name.
  assert (H : forall ps acc,
    dict_get key
      (fold_left (fun acc p => dict_set (docstring_parser.arg_name p) p acc)
         ps acc) = None <->
    dict_get key acc = None /\
    (forall p, In p ps -> docstring_parser.arg_name p <> key)).
  { induction ps as [|p ps IH]; intros acc; simpl.
    - intuition.
    - rewrite IH, dict_get_set.
      destruct (String.eqb_spec key (docstring_parser.arg_name p)) as [->|Hne].
      + split; [intros [Hd _]; discriminate|].
        intros [_ Hall]. exfalso. now apply (Hall p); [left|].
      + split.
        * intros [Hacc Hall]. split; [assumption|].
          intros q [<-|Hq]; [congruence|now apply Hall].
        * intros [Hacc Hall]. split; [assumption|]. intros q Hq. apply Hall.
          now right. }
  rewrite H. simpl. intuition.
Qed.

(** * The schema assembler *)

Lemma _parse_params_loop_ok :
  forall params schema_params,
    Forall mappable params ->
    exists props, _parse_params_loop params schema_params = Ok props.
Proof.
  induction params as [|r rest IH]; intros acc Hall; simpl.
  - eauto.
  - inversion Hall as [|? ? Hr Hrest]; subst.
    unfold mappable in Hr.
    destruct (_parse_param_type (_FunctionParam.typing r)); [|discriminate].
    simpl. now apply IH.
Qed.

Lemma _parse_params_loop_raises :
  forall params schema_params e,
    _parse_params_loop params schema_params = Raise e ->
    exists r, In r params /\ _parse_param_type (_FunctionParam.typing r) = Raise e.
Proof.
  induction params as [|r rest IH]; intros acc e; simpl; [discriminate|].
  destruct (_parse_param_type (_FunctionParam.typing r)) eqn:E; simpl.
  - intros H. destruct (IH _ _ H) as (r' & Hin & Hr'). eauto.
  - intros H. inversion H; subst. eauto.
Qed.

Lemma _parse_params_loop_mappable :
  forall params schema_params props,
    _parse_params_loop params schema_params = Ok props ->
    Forall mappable params.
Proof.
  induction params as [|r rest IH]; intros acc props; simpl; [constructor|].
  destruct (_parse_param_type (_FunctionParam.typing r)) eqn:E; simpl;
    [|discriminate].
  intros H. constructor; [unfold mappable; now rewrite E|eauto].
Qed.

(** With distinct names every record adds one entry, at the end. *)
Lemma _parse_params_loop_keys :
  forall params schema_params props,
    _parse_params_loop params schema_params = Ok props ->
    NoDup (dict_keys schema_params ++ map _FunctionParam.name params) ->
    dict_keys props = dict_keys schema_params ++ map _FunctionParam.name params.
Proof.
  induction params as [|r rest IH]; intros acc props; simpl.
  - intros H _. inversion H; subst. now rewrite app_nil_r.
  - destruct (_parse_param_type (_FunctionParam.typing r)) as [frag|]; simpl;
      [|discriminate].
    intros Hrun Hnd.
    assert (Hfresh : ~ In (_FunctionParam.name r) (dict_keys acc)).
    { intros Hin. apply NoDup_remove_2 in Hnd. apply Hnd.
      apply in_or_app. now left. }
    apply IH in Hrun.
    + rewrite Hrun, dict_keys_set_new by assumption. now rewrite <- app_assoc.
    + rewrite dict_keys_set_new by assumption. now rewrite <- app_assoc.
Qed.

(** The entry found under a parameter's name was stored for a record of
    that name. *)
Lemma _parse_params_loop_get k :
  forall params schema_params props,
    _parse_params_loop params schema_params = Ok props ->
    In k (map _FunctionParam.name params) ->
    exists r fragment,
      In r params /\ _FunctionParam.name r = k
      /\ _parse_param_type (_FunctionParam.typing r) = Ok fragment
      /\ dict_get k props = Some (property_of fragment r).
Proof.
  assert (Hkeep : forall params acc props,
    _parse_params_loop params acc = Ok props ->
    ~ In k (map _FunctionParam.name params) ->
    dict_get k props = dict_get k acc).
  { induction params as [|r rest IH]; intros acc props; simpl.
    - intros H _. now inversion H.
    - destruct (_parse_param_type (_FunctionParam.typing r)); simpl;
        [|discriminate].
      intros Hrun Hnot. rewrite (IH _ _ Hrun) by tauto.
      rewrite dict_get_set.
      destruct (String.eqb_spec k (_FunctionParam.name r)); [|reflexivity].
      exfalso. apply Hnot. now left. }
  induction params as [|r rest IH]; intros acc props; simpl; [tauto|].
  destruct (_parse_param_type (_FunctionParam.typing r)) as [frag|] eqn:E;
    simpl; [|discriminate].
  intros Hrun Hin.
  destruct (in_dec String.string_dec k (map _FunctionParam.name rest))
    as [Hrest|Hrest].
  - destruct (IH _ _ Hrun Hrest) as (r' & frag' & Hr' & Hn & Hp & Hg).
    exists r', frag'. auto.
  - destruct Hin as [Hk|Hk]; [|contradiction].
    exists r, frag. split; [now left|]. split; [assumption|].
    split; [assumption|].
    rewrite (Hkeep _ _ _ Hrun Hrest), dict_get_set, <- Hk.
    now rewrite String.eqb_refl.
Qed.

Lemma property_of_description fragment r :
  json_get "description" (property_of fragment r)
  = Some (JStr (_FunctionParam.description r)).
Proof.
  unfold property_of, dict_update. simpl.
  now rewrite dict_get_set, String.eqb_refl.
Qed.

(** * [schema], step by step *)

Section SchemaFacts.
Variable parse : option string -> result docstring_parser.Docstring.

Lemma schema_parse_raises st e :
  parse (__doc__ (func (self st))) = Raise e ->
  schema parse st = (Raise e, st).
Proof. intros H. unfold schema. now rewrite H. Qed.

Lemma schema_parsed st docstring :
  parse (__doc__ (func (self st))) = Ok docstring ->
  exists records,
    schema parse st
    = (parameters <- _parse_params records ;;
       Ok (descriptor (func (self st)) docstring parameters),
       extracted st docstring)
    /\ map _FunctionParam.name records
       = dict_keys (dict_del "return" (__annotations__ (func (self st))))
    /\ Forall (extracted_from
                 (dict_del "return" (__annotations__ (func (self st))))
                 (key_by_arg_name (docstring_parser.params docstring)))
         records.
Proof.
  intros Hp.
  destruct (_create_function_params_spec
              (__annotations__ (func (self st)))
              (docstring_parser.params docstring))
    as (records & Hrun & Hnames & Hall).
  exists records. split; [|split; assumption].
  unfold schema. rewrite Hp. cbv zeta. rewrite Hrun. reflexivity.
Qed.

Lemma schema_ok_inv st d st' :
  schema parse st = (Ok d, st') ->
  exists docstring records props,
    parse (__doc__ (func (self st))) = Ok docstring
    /\ st' = extracted st docstring
    /\ map _FunctionParam.name records
       = dict_keys (dict_del "return" (__annotations__ (func (self st))))
    /\ Forall (extracted_from
                 (dict_del "return" (__annotations__ (func (self st))))
                 (key_by_arg_name (docstring_parser.params docstring)))
         records
    /\ _parse_params_loop records [] = Ok props
    /\ d = descriptor (func (self st)) docstring
             (JDict [("type", JStr "object"); ("properties", JDict props)]).
Proof.
  intros Hrun.
  destruct (parse (__doc__ (func (self st)))) as [docstring|e] eqn:Hp.
  - destruct (schema_parsed st Hp) as (records & Heq & Hnames & Hall).
    rewrite Heq in Hrun. unfold _parse_params in Hrun.
    destruct (_parse_params_loop records []) as [props|e] eqn:Hloop;
      simpl in Hrun; [|discriminate].
    inversion Hrun; subst.
    exists docstring, records, props. auto 10.
  - rewrite (schema_parse_raises st Hp) in Hrun. discriminate.
Qed.
End SchemaFacts.

(** * When [schema] raises *)

Section SchemaErrors.
Variable parse : option string -> result docstring_parser.Docstring.

(** X4.  Once the documentation is parsed, [schema] raises exactly when
    the type mapper rejects the hint of some annotated parameter; the
    return hint is never looked at. *)
Lemma schema_fails_iff_unmappable st docstring :
  parse (__doc__ (func (self st))) = Ok docstring ->
  is_ok (fst (schema parse st)) = false <->
  exists key tp,
    key <> "return"
    /\ dict_get key (__annotations__ (func (self st))) = Some tp
    /\ is_ok (_parse_param_type tp) = false.
Proof.
  intros Hp.
  destruct (schema_parsed parse st Hp) as (records & Hrun & Hnames & Hall).
  rewrite Hrun. unfold _parse_params. simpl fst.
  rewrite Forall_forall in Hall.
  split.
  - destruct (_parse_params_loop records []) as [props|e] eqn:Hloop;
      simpl; [discriminate|]. intros _.
    destruct (_parse_params_loop_raises _ _ Hloop) as (r & Hin & Hr).
    destruct (Hall r Hin) as [Hget _].
    assert (Hne : _FunctionParam.name r <> "return").
    { intros Heq. rewrite Heq, dict_get_del_same in Hget. discriminate. }
    exists (_FunctionParam.name r), (_FunctionParam.typing r).
    rewrite dict_get_del_other in Hget by assumption.
    now rewrite Hr.
  - intros (key & tp & Hne & Hget & Hbad).
    destruct (_parse_params_loop records []) as [props|e] eqn:Hloop;
      [|reflexivity].
    exfalso.
    apply _parse_params_loop_mappable in Hloop.
    rewrite Forall_forall in Hloop.
    assert (Hkey : In key (map _FunctionParam.name records)).
    { rewrite Hnames.
      apply dict_get_None_inv. rewrite dict_get_del_other by assumption.
      now rewrite Hget. }
    apply in_map_iff in Hkey. destruct Hkey as (r & Hname & Hin).
    specialize (Hloop r Hin). unfold mappable in Hloop.
    destruct (Hall r Hin) as [Hr _].
    rewrite Hname, dict_get_del_other, Hget in Hr by assumption.
    inversion Hr; subst. congruence.
Qed.

(** The exception then carries the rejected hint. *)
Lemma schema_error_names_hint st docstring e :
  parse (__doc__ (func (self st))) = Ok docstring ->
  fst (schema parse st) = Raise e ->
  exists key tp,
    key <> "return"
    /\ dict_get key (__annotations__ (func (self st))) = Some tp
    /\ e = ValueError unexpected_type tp.
Proof.
  intros Hp.
  destruct (schema_parsed parse st Hp) as (records & Hrun & Hnames & Hall).
  rewrite Hrun. unfold _parse_params. simpl fst.
  rewrite Forall_forall in Hall.
  destruct (_parse_params_loop records []) as [props|e'] eqn:Hloop;
    simpl; [discriminate|].
  intros He. inversion He; subst e'.
  destruct (_parse_params_loop_raises _ _ Hloop) as (r & Hin & Hr).
  destruct (Hall r Hin) as [Hget _].
  assert (Hne : _FunctionParam.name r <> "return").
  { intros Heq. rewrite Heq, dict_get_del_same in Hget. discriminate. }
  exists (_FunctionParam.name r), (_FunctionParam.typing r).
  rewrite dict_get_del_other in Hget by assumption.
  split; [assumption|]. split; [assumption|].
  now apply _parse_param_type_raises.
Qed.
End SchemaErrors.

(** * The invocation adapter *)

(** C1.  The claim reads: when the wrapped callable returns [None] the
    adapter returns the empty string.  The code does otherwise: [None] is
    not a string, [getattr(None, "__str__")] is a bound method and hence
    true, so the adapter answers [str(None)], the text [None]; the final
    [return ""] is not reached.  Nothing is raised and the callable is left
    as it was. *)
Theorem call_on_None_gives_text_None st args kwargs :
  __code__ (func (self st)) args kwargs = Ok VNone ->
  __call__ args kwargs st = (Ok "None", st).
Proof.
  intros H. unfold __call__. now rewrite H.
Qed.

Lemma call_on_None_gives_text_None_witness :
  __call__ [] [] (start output_user) = (Ok "None", start output_user).
Proof.
  apply (call_on_None_gives_text_None (start output_user) [] []).
  reflexivity.
Defined.

(** An integer of more digits than the interpreter converts has no textual
    representation: [str] raises on it. *)
Lemma str_of_long_int z :
  Nat.ltb int_max_str_digits (decimal_digits z) = true ->
  str (VInt z)
  = Raise (ValueError exceeds_the_limit
             (Obj (VInt (Z.of_nat int_max_str_digits)))).
Proof. intros H. unfold str. now rewrite H. Qed.

(** C8, as the code has it.  A result that is a string is returned
    unchanged.  A result that is not a string, whose [__str__] attribute is
    true and that has a textual representation, is returned as that
    representation.  A result that is not a string and whose [__str__]
    attribute is false is answered with the empty string, whatever [str]
    would make of it. *)
Theorem call_coerces_to_text st args kwargs v :
  __code__ (func (self st)) args kwargs = Ok v ->
  (forall s, v = VStr s -> __call__ args kwargs st = (Ok s, st))
  /\ (forall t, isinstance_str v = false -> getattr__str__ v = Ok true ->
        str v = Ok t ->
        __call__ args kwargs st = (Ok t, st))
  /\ (isinstance_str v = false -> getattr__str__ v = Ok false ->
      __call__ args kwargs st = (Ok "", st)).
Proof.
  intros H. unfold __call__. rewrite H. cbn [bind]. split; [|split].
  - intros s ->. reflexivity.
  - intros t Hns Hattr Hstr.
    destruct v; try discriminate; rewrite Hattr; cbn [bind];
      now rewrite Hstr.
  - intros Hns Hattr.
    destruct v; try discriminate; now rewrite Hattr.
Qed.

Lemma call_coerces_to_text_witness :
  __call__ [VInt 1; VStr "r"] [] (start my_func) = (Ok "5", start my_func).
Proof.
  exact (proj1 (proj2 (call_coerces_to_text (start my_func)
                         [VInt 1; VStr "r"] [] eq_refl))
           "5" eq_refl eq_refl eq_refl).
Defined.

(** C8, as stated, fails: the result of [returns_masked] is not a string
    and has a textual representation, and the adapter answers the empty
    string, because the [__str__] attribute of the result is false. *)
Lemma call_hides_text_behind_false_attribute :
  __code__ returns_masked [] []
  = Ok (VInstance "Point" StrFalsy (Shown "Point(1, 2)"))
  /\ isinstance_str (VInstance "Point" StrFalsy (Shown "Point(1, 2)")) = false
  /\ str (VInstance "Point" StrFalsy (Shown "Point(1, 2)"))
     = Ok "Point(1, 2)"
  /\ fst (__call__ [] [] (start returns_masked)) = Ok "".
Proof. repeat split; reflexivity. Qed.

(** * The type mapper *)

(** C5.  [str], [int] and [float] map to the fragments with type [string],
    [int] and [float]; a hint with a non-empty argument list (a [Literal])
    and an [Enum] class map to type [string] with the choices, respectively
    the member values, in their order under [enum]. *)
Theorem type_mapper_fragments :
  _parse_param_type str_t = Ok [("type", JStr "string")]
  /\ _parse_param_type int_t = Ok [("type", JStr "int")]
  /\ _parse_param_type float_t = Ok [("type", JStr "float")]
  /\ (forall origin v vs,
        _parse_param_type (GenericAlias origin (v :: vs))
        = Ok [("type", JStr "string"); ("enum", JList (v :: vs))])
  /\ (forall c cs,
        _parse_param_type (Literal (c :: cs))
        = Ok [("type", JStr "string");
              ("enum", JList (map (fun s => Obj (VStr s)) (c :: cs)))])
  /\ (forall name members,
        _parse_param_type (EnumClass name members)
        = Ok [("type", JStr "string");
              ("enum", JList (map (fun m => Obj (snd m)) members))]).
Proof.
  repeat split; reflexivity.
Qed.

(** X15.  Whenever the type mapper emits an [enum] list, either the hint
    is a subscripted form and the list is its argument list, in order and
    not empty, or the hint is an [Enum] class and the list holds the values
    of its members in definition order. *)
Theorem enum_list_as_declared tp fragment values :
  _parse_param_type tp = Ok fragment ->
  dict_get "enum" fragment = Some (JList values) ->
  (exists origin, tp = GenericAlias origin values /\ values <> [])
  \/ (exists name members,
        tp = EnumClass name members
        /\ values = map (fun m => Obj (snd m)) members).
Proof.
  unfold _parse_param_type.
  destruct tp as [v | n | n members | origin args]; simpl.
  - discriminate.
  - destruct (String.eqb n "str"); [intros H; inversion H; discriminate|].
    destruct (String.eqb n "int"); [intros H; inversion H; discriminate|].
    destruct (String.eqb n "float"); [intros H; inversion H; discriminate|].
    discriminate.
  - intros H; inversion H; subst; simpl. intros Hv; inversion Hv; subst.
    right. eauto.
  - destruct args as [|a args]; [discriminate|].
    intros H; inversion H; subst; simpl. intros Hv; inversion Hv; subst.
    left. exists origin. split; [reflexivity|discriminate].
Qed.

Lemma enum_list_as_declared_witness :
  (exists origin,
     Literal ["x"; "y"] = GenericAlias origin [Obj (VStr "x"); Obj (VStr "y")]
     /\ [Obj (VStr "x"); Obj (VStr "y")] <> [])
  \/ (exists name members,
        Literal ["x"; "y"] = EnumClass name members
        /\ [Obj (VStr "x"); Obj (VStr "y")]
           = map (fun m => Obj (snd m)) members).
Proof.
  apply (@enum_list_as_declared (Literal ["x"; "y"])
           [("type", JStr "string");
            ("enum", JList [Obj (VStr "x"); Obj (VStr "y")])]);
    reflexivity.
Defined.

(** C9.  The claim reads: an enumerated-string type that reaches the
    schema assembler has a non-empty value list.  The code does otherwise
    for an [Enum] class without members: the branch for subscripted hints
    lets no empty list through (a [Literal] without choices is rejected
    with the [ValueError]), the branch for [Enum] classes does not look,
    and the empty [enum] list ends up in the descriptor. *)
Theorem empty_enum_reaches_assembler :
  _parse_param_type (Literal [])
  = Raise (ValueError unexpected_type (Literal []))
  /\ _parse_param_type (EnumClass "Empty" [])
     = Ok [("type", JStr "string"); ("enum", JList [])]
  /\ fst (schema (parse_known []) (start takes_empty_enum))
     = Ok (JDict
             [("type", JStr "function");
              ("function",
               JDict
                 [("name", JStr "g");
                  ("description", JNone);
                  ("parameters",
                   JDict
                     [("type", JStr "object");
                      ("properties",
                       JDict
                         [("choice",
                           JDict [("type", JStr "string");
                                  ("enum", JList []);
                                  ("description", JStr "")])])])])]).
Proof. repeat split; reflexivity. Qed.

(** * The parameter extractor *)

(** C7.  The extractor returns normally, with one record per entry of the
    annotation dictionary other than [return], in the order of the
    dictionary, each carrying the hint stored under its name.  No record is
    named [return], and a name that is not a key of the dictionary (a
    parameter without a hint, a name that only the documentation mentions)
    has no record. *)
Theorem extractor_one_record_per_annotation annotations docstring_params :
  exists records,
    returned (_create_function_params annotations docstring_params) = Ok records
    /\ map _FunctionParam.name records
       = filter (fun k => negb (String.eqb "return" k)) (dict_keys annotations)
    /\ Forall (fun r => dict_get (_FunctionParam.name r) annotations
                        = Some (_FunctionParam.typing r)) records
    /\ ~ In "return" (map _FunctionParam.name records)
    /\ (forall k, ~ In k (dict_keys annotations) ->
                  ~ In k (map _FunctionParam.name records)).
Proof.
  destruct (_create_function_params_spec annotations docstring_params)
    as (records & Hrun & Hnames & Hall).
  rewrite dict_keys_del in Hnames.
  exists records. rewrite Hrun. simpl.
  split; [reflexivity|]. split; [assumption|]. split; [|split].
  - rewrite Forall_forall in *. intros r Hin.
    destruct (Hall r Hin) as [Hget _].
    rewrite <- Hget. symmetry. apply dict_get_del_other.
    intros Heq. rewrite Heq, dict_get_del_same in Hget. discriminate.
  - rewrite Hnames, filter_In. rewrite String.eqb_refl. simpl.
    intros [_ H]. discriminate.
  - intros k Hk. rewrite Hnames, filter_In. tauto.
Qed.

(** * Schema generation *)

Section SchemaClaims.
Variable parse : option string -> result docstring_parser.Docstring.

(** C6.  Take a parameter with a hint and with no documentation entry of
    exactly its name.  The extractor returns normally, every record of that
    name has the empty description, and the warning that spells out the
    name of the parameter is logged.  Provided the documentation parses and the type mapper accepts
    every hint, [schema] returns a descriptor, the warning is in the log it
    leaves, and the parameter's property carries the empty description. *)
Theorem undocumented_parameter_is_described_empty st docstring key :
  parse (__doc__ (func (self st))) = Ok docstring ->
  In key (dict_keys (__annotations__ (func (self st)))) ->
  key <> "return" ->
  (forall p, In p (docstring_parser.params docstring) ->
             docstring_parser.arg_name p <> key) ->
  (forall k tp, k <> "return" ->
                dict_get k (__annotations__ (func (self st))) = Some tp ->
                is_ok (_parse_param_type tp) = true) ->
  let x := _create_function_params (__annotations__ (func (self st)))
             (docstring_parser.params docstring) in
  (exists records,
     returned x = Ok records
     /\ In key (map _FunctionParam.name records)
     /\ (forall r, In r records -> _FunctionParam.name r = key ->
                   _FunctionParam.description r = ""))
  /\ In ("Function param " ++ key ++
         " has no docstring description. Add a docstring description for more accurate use by GPT.")%string
       (warnings x)
  /\ (exists d st' props property,
        schema parse st = (Ok d, st')
        /\ In ("Function param " ++ key ++
               " has no docstring description. Add a docstring description for more accurate use by GPT.")%string
             (logging st')
        /\ properties_of d = Some props
        /\ dict_get key props = Some property
        /\ json_get "description" property = Some (JStr "")).
Proof.
  intros Hp Hkey Hne Hundoc Hmap x.
  change ("Function param " ++ key ++
          " has no docstring description. Add a docstring description for more accurate use by GPT.")%string
    with (no_docstring_warning key).
  set (keyed := key_by_arg_name (docstring_parser.params docstring)).
  set (rest := dict_del "return" (__annotations__ (func (self st)))).
  destruct (_create_function_params_spec (__annotations__ (func (self st)))
              (docstring_parser.params docstring))
    as (records & Hx & Hnames & Hall).
  fold keyed rest in Hx, Hnames, Hall.
  assert (Hnone : dict_get key keyed = None)
    by now apply key_by_arg_name_None.
  assert (Hin : In key (dict_keys rest)).
  { unfold rest. rewrite dict_keys_del, filter_In. split; [assumption|].
    destruct (String.eqb_spec "return" key); [congruence|reflexivity]. }
  assert (Hwarn : In (no_docstring_warning key)
                    (flat_map (warn_about keyed) (dict_keys rest))).
  { apply in_flat_map. exists key. split; [assumption|].
    unfold warn_about. rewrite Hnone. now left. }
  assert (Hempty : forall r, In r records -> _FunctionParam.name r = key ->
                             _FunctionParam.description r = "").
  { rewrite Forall_forall in Hall. intros r Hr Hname.
    destruct (Hall r Hr) as [_ Hdesc].
    rewrite Hdesc, Hname. unfold describe. now rewrite Hnone. }
  assert (Hok : Forall mappable records).
  { rewrite Forall_forall in *. intros r Hr.
    destruct (Hall r Hr) as [Hget _].
    assert (Hnr : _FunctionParam.name r <> "return").
    { intros Heq. unfold rest in Hget.
      rewrite Heq, dict_get_del_same in Hget. discriminate. }
    unfold rest in Hget. rewrite dict_get_del_other in Hget by assumption.
    exact (Hmap _ _ Hnr Hget). }
  destruct (_parse_params_loop_ok [] Hok) as (props & Hloop).
  subst x. rewrite Hx. simpl.
  split; [|split; [assumption|]].
  - exists records. rewrite Hnames. auto.
  - rewrite <- Hnames in Hin.
    destruct (_parse_params_loop_get key _ _ Hloop Hin)
      as (r & fragment & Hr & Hname & _ & Hget).
    exists (descriptor (func (self st)) docstring
              (JDict [("type", JStr "object"); ("properties", JDict props)])),
           (extracted st docstring), props, (property_of fragment r).
    split; [|split; [|split; [reflexivity|split; [assumption|]]]].
    + unfold schema. rewrite Hp. cbv zeta. rewrite Hx. simpl.
      unfold _parse_params. rewrite Hloop. reflexivity.
    + simpl. apply in_or_app. right. exact Hwarn.
    + rewrite property_of_description. now rewrite (Hempty r Hr Hname).
Qed.

(** C4.  In the descriptor [schema] returns, the keys of [properties] are
    the keys of the annotation dictionary without [return], in the order of
    that dictionary.  The documentation plays no part: the statement holds
    for every parser and every documentation. *)
Theorem properties_follow_declaration_order st d st' :
  dict_wf (__annotations__ (func (self st))) ->
  schema parse st = (Ok d, st') ->
  exists props,
    properties_of d = Some props
    /\ dict_keys props
       = filter (fun k => negb (String.eqb "return" k))
           (dict_keys (__annotations__ (func (self st)))).
Proof.
  intros Hwf Hrun.
  destruct (schema_ok_inv parse st Hrun)
    as (docstring & records & props & _ & _ & Hnames & _ & Hloop & ->).
  exists props. split; [reflexivity|].
  rewrite dict_keys_del in Hnames.
  rewrite <- Hnames.
  apply (_parse_params_loop_keys records [] Hloop).
  simpl. rewrite Hnames. now apply NoDup_filter.
Qed.

(** C10.  When [schema] returns a descriptor, calling it again on the
    adapter as the first call left it returns the same descriptor, and
    leaves the wrapped function as the first call left it. *)
Theorem schema_twice_same_descriptor st d st1 :
  schema parse st = (Ok d, st1) ->
  exists st2, schema parse st1 = (Ok d, st2) /\ self st2 = self st1.
Proof.
  intros Hrun.
  assert (Hfirst := Hrun).
  destruct (schema_ok_inv parse st Hrun)
    as (docstring & records & props & Hp & -> & _).
  unfold schema in Hfirst |- *. simpl.
  rewrite Hp in Hfirst |- *. cbv zeta in Hfirst |- *.
  pose proof (_create_function_params_spec
                (__annotations__ (func (self st)))
                (docstring_parser.params docstring)) as (recs & Hx & _).
  assert (Hagain :
    _create_function_params
      (dict_del "return" (__annotations__ (func (self st))))
      (docstring_parser.params docstring)
    = _create_function_params (__annotations__ (func (self st)))
        (docstring_parser.params docstring)).
  { unfold _create_function_params.
    now rewrite !dict_del_guarded, dict_del_idem. }
  rewrite Hagain.
  inversion Hfirst as [[Hd Hst]].
  rewrite Hd. eexists. split; [reflexivity|].
  simpl. now rewrite Hx.
Qed.

(** C3, as the code has it.  Construction, [name], [description] and
    invocation leave the wrapped function as it is.  [schema] leaves its
    name, documentation and behaviour as they are; of the annotation
    dictionary it deletes the [return] entry when the documentation parses
    and the entry is there, and changes nothing else. *)
Theorem adapter_touches_only_return_annotation f st args kwargs :
  func (__init__ f) = f
  /\ snd (name st) = st
  /\ snd (description parse st) = st
  /\ snd (__call__ args kwargs st) = st
  /\ (let f0 := func (self st) in
      let f1 := func (self (snd (schema parse st))) in
      __name__ f1 = __name__ f0
      /\ __doc__ f1 = __doc__ f0
      /\ __code__ f1 = __code__ f0
      /\ __annotations__ f1
         = if is_ok (parse (__doc__ f0))
              && dict_contains "return" (__annotations__ f0)
           then dict_del "return" (__annotations__ f0)
           else __annotations__ f0).
Proof.
  repeat (split; [reflexivity|]).
  cbv zeta. unfold schema.
  destruct (parse (__doc__ (func (self st)))) as [docstring|e]; simpl;
    [|auto].
  repeat (split; [reflexivity|]).
  unfold _create_function_params.
  destruct (_create_function_params_loop _ _ _ _ _). simpl.
  reflexivity.
Qed.
End SchemaClaims.

(** * The functions of the test suite, evaluated *)

Example test_decorator_on_func :
  fst (schema (parse_known my_docs) (start my_func))
  = Ok (expected_schema "This is my func.").
Proof. reflexivity. Qed.

Example test_unexpected_type_raises_error :
  _parse_param_type (Class "dict") = Raise (ValueError unexpected_type (Class "dict"))
  /\ _parse_param_type (Class "bool") = Raise (ValueError unexpected_type (Class "bool"))
  /\ fst (schema (parse_known []) (start takes_bool))
     = Raise (ValueError unexpected_type (Class "bool")).
Proof. repeat split; reflexivity. Qed.

Example test_errors_with_no_type_annotations :
  returned (_create_function_params []
              (docstring_parser.params
                 (documented "I can write docstring but not type annotations."
                    [("a", "Param a does a thing."); ("b", "b description")])))
  = Ok [].
Proof. reflexivity. Qed.

Example literal_parameter_fragment :
  match fst (schema (parse_known []) (start takes_literal)) with
  | Ok d =>
      match properties_of d with
      | Some props => dict_get "choice" props
      | None => None
      end
  | Raise _ => None
  end
  = Some (JDict [("type", JStr "string");
                 ("enum", JList [Obj (VStr "x"); Obj (VStr "y")]);
                 ("description", JStr "")]).
Proof. reflexivity. Qed.

(** C2.  The claim reads: [schema] fails whenever the type of a parameter
    is outside the supported ones.  The code does otherwise for a
    subscripted generic such as [List[int]]: it is none of the documented
    types, yet [get_args] is non-empty on it, so the type mapper treats it
    as a [Literal] and [schema] returns a descriptor whose [enum] list holds
    the class [int]. *)
Theorem schema_accepts_subscripted_generic :
  documented_type (GenericAlias "List" [int_t]) = false
  /\ fst (schema (parse_known []) (start takes_list))
     = Ok (JDict
             [("type", JStr "function");
              ("function",
               JDict
                 [("name", JStr "f");
                  ("description", JNone);
                  ("parameters",
                   JDict
                     [("type", JStr "object");
                      ("properties",
                       JDict
                         [("a",
                           JDict [("type", JStr "string");
                                  ("enum", JList [Class "int"]);
                                  ("description", JStr "")])])])])]).
Proof. split; reflexivity. Qed.

(** C3, as stated, fails: [schema] deletes the [return] entry from the
    annotation dictionary of the wrapped function. *)
Lemma schema_deletes_return_annotation :
  __annotations__ (func (self (start my_func)))
  = [("a", int_t); ("b", str_t); ("return", int_t)]
  /\ __annotations__
       (func (self (snd (schema (parse_known my_docs) (start my_func)))))
     = [("a", int_t); ("b", str_t)]
  /\ __annotations__
       (func (self (snd (schema (parse_known my_docs) (start my_func)))))
     <> __annotations__ (func (self (start my_func))).
Proof. repeat split; try reflexivity. discriminate. Qed.

Lemma properties_follow_declaration_order_witness :
  exists props,
    properties_of (expected_schema "b before a") = Some props
    /\ dict_keys props = ["a"; "b"].
Proof.
  apply (@properties_follow_declaration_order (parse_known my_docs)
           (start documented_backwards) (expected_schema "b before a")
           (snd (schema (parse_known my_docs) (start documented_backwards)))).
  - unfold dict_wf. simpl.
    repeat constructor; simpl; intuition discriminate.
  - reflexivity.
Defined.

Lemma schema_twice_same_descriptor_witness :
  exists st2,
    schema (parse_known my_docs)
      (snd (schema (parse_known my_docs) (start my_func)))
    = (Ok (expected_schema "This is my func."), st2)
    /\ self st2 = self (snd (schema (parse_known my_docs) (start my_func))).
Proof.
  apply (@schema_twice_same_descriptor (parse_known my_docs) (start my_func)).
  reflexivity.
Defined.

Lemma undocumented_parameter_is_described_empty_witness :
  In "Function param name has no docstring description. Add a docstring description for more accurate use by GPT."
    (warnings (_create_function_params (__annotations__ output_user) []))
  /\ (exists d st' props property,
        schema (parse_known my_docs) (start output_user) = (Ok d, st')
        /\ In "Function param name has no docstring description. Add a docstring description for more accurate use by GPT."
             (logging st')
        /\ properties_of d = Some props
        /\ dict_get "name" props = Some property
        /\ json_get "description" property = Some (JStr "")).
Proof.
  refine (proj2 (@undocumented_parameter_is_described_empty
                   (parse_known my_docs) (start output_user)
                   (documented "Lol no docs for you" []) "name" _ _ _ _ _)).
  - reflexivity.
  - simpl. auto.
  - discriminate.
  - simpl. tauto.
  - intros k tp Hne. simpl.
    destruct (String.eqb k "name"); [intros H; inversion H; reflexivity|].
    destruct (String.eqb k "age"); [intros H; inversion H; reflexivity|].
    destruct (String.eqb_spec k "return"); [contradiction|discriminate].
Defined.

(** * More on schema generation *)

Lemma declared_parameters_del annotations :
  dict_keys (dict_del "return" annotations) = declared_parameters annotations.
Proof. apply dict_keys_del. Qed.

Lemma undocumented_spec docstring_params key :
  dict_get key (key_by_arg_name docstring_params) = None <->
  undocumented docstring_params key = true.
Proof.
  rewrite key_by_arg_name_None. unfold undocumented.
  rewrite negb_true_iff, <- not_true_iff_false, existsb_exists.
  split.
  - intros H (p & Hin & Heq). apply String.eqb_eq in Heq. now apply (H p).
  - intros H p Hin Heq. apply H. exists p. split; [assumption|].
    now apply String.eqb_eq.
Qed.

Lemma warnings_of_undocumented docstring_params keys :
  flat_map (warn_about (key_by_arg_name docstring_params)) keys
  = map no_docstring_warning (filter (undocumented docstring_params) keys).
Proof.
  induction keys as [|k keys IH]; simpl; [reflexivity|].
  unfold warn_about at 1.
  destruct (dict_get k (key_by_arg_name docstring_params)) eqn:E.
  - destruct (undocumented docstring_params k) eqn:U; [|assumption].
    apply undocumented_spec in U. congruence.
  - apply undocumented_spec in E. rewrite E. simpl. now rewrite IH.
Qed.

Lemma dict_del_all k {A : Type} (d : dict A) :
  (forall k', In k' (dict_keys d) -> k' = k) -> dict_del k d = [].
Proof.
  induction d as [|[k0 v0] d IH]; simpl; [reflexivity|].
  intros H. rewrite (H k0) by now left. rewrite String.eqb_refl. simpl.
  apply IH. intros k' Hk'. apply H. now right.
Qed.

Section SchemaEffects.
Variable parse : option string -> result docstring_parser.Docstring.

(** X1.  For a function whose only annotation, if any, is the return
    hint, [schema] returns the descriptor with the empty [properties]
    dictionary and logs nothing. *)
Theorem schema_of_parameterless st docstring :
  parse (__doc__ (func (self st))) = Ok docstring ->
  (forall k, In k (dict_keys (__annotations__ (func (self st)))) ->
             k = "return") ->
  exists st',
    schema parse st
    = (Ok (JDict
             [("type", JStr "function");
              ("function",
               JDict [("name", JStr (__name__ (func (self st))));
                      ("description",
                       json_of_option
                         (docstring_parser.short_description docstring));
                      ("parameters",
                       JDict [("type", JStr "object");
                              ("properties", JDict [])])])]),
       st')
    /\ logging st' = logging st.
Proof.
  intros Hp Honly.
  destruct (schema_parsed parse st Hp) as (records & Hrun & Hnames & _).
  rewrite Hrun. unfold extracted.
  rewrite (dict_del_all _ Honly) in *. simpl in Hnames.
  destruct records; [|discriminate].
  eexists. split; [reflexivity|]. simpl. apply app_nil_r.
Qed.

(** X2.  Whatever [schema] returns or raises once the documentation is
    parsed, it has by then deleted the [return] entry of the annotations
    and logged one warning for each annotated parameter that no
    documentation entry names, in declaration order, and nothing else. *)
Theorem schema_effects_whatever_the_outcome st docstring :
  parse (__doc__ (func (self st))) = Ok docstring ->
  __annotations__ (func (self (snd (schema parse st))))
  = dict_del "return" (__annotations__ (func (self st)))
  /\ logging (snd (schema parse st))
     = logging st ++
       map no_docstring_warning
         (filter (undocumented (docstring_parser.params docstring))
            (declared_parameters (__annotations__ (func (self st))))).
Proof.
  intros Hp.
  destruct (schema_parsed parse st Hp) as (records & Hrun & _).
  rewrite Hrun. simpl.
  now rewrite warnings_of_undocumented, declared_parameters_del.
Qed.

(** X3.  [schema] raises nothing of its own making but the [ValueError] of
    the type mapper: an exception it raises is either the one the
    documentation parser raised, or the [ValueError] carrying the hint of an
    annotated parameter that the type mapper rejects.  In particular the
    lookup [annotations[key]] never raises [KeyError]. *)
Theorem schema_raises_only st e :
  fst (schema parse st) = Raise e ->
  parse (__doc__ (func (self st))) = Raise e
  \/ exists key tp,
       key <> "return"
       /\ dict_get key (__annotations__ (func (self st))) = Some tp
       /\ _parse_param_type tp = Raise e
       /\ e = ValueError unexpected_type tp.
Proof.
  destruct (parse (__doc__ (func (self st)))) as [docstring|e'] eqn:Hp.
  - destruct (schema_parsed parse st Hp) as (records & Hrun & Hnames & Hall).
    rewrite Hrun. unfold _parse_params. simpl fst.
    destruct (_parse_params_loop records []) as [props|e1] eqn:Hloop;
      simpl; [discriminate|].
    intros He. inversion He; subst e1. right.
    destruct (_parse_params_loop_raises _ _ Hloop) as (r & Hin & Hr).
    rewrite Forall_forall in Hall. destruct (Hall r Hin) as [Hget _].
    assert (Hne : _FunctionParam.name r <> "return").
    { intros Heq. rewrite Heq, dict_get_del_same in Hget. discriminate. }
    rewrite dict_get_del_other in Hget by assumption.
    exists (_FunctionParam.name r), (_FunctionParam.typing r).
    repeat split; try assumption.
    now apply _parse_param_type_raises.
  - rewrite (schema_parse_raises parse st Hp). simpl.
    intros He. inversion He; subst. now left.
Qed.
End SchemaEffects.

(** * Which exception, which description *)

Lemma dict_get_of_entry {A : Type} (d : dict A) k v :
  dict_wf d -> In (k, v) d -> dict_get k d = Some v.
Proof.
  unfold dict_wf.
  induction d as [|[k0 v0] d IH]; simpl; [tauto|].
  intros Hnd [Heq|Hin].
  - inversion Heq; subst. now rewrite String.eqb_refl.
  - inversion Hnd as [|? ? Hfresh Hrest]; subst.
    destruct (String.eqb_spec k k0) as [->|Hne]; [|now apply IH].
    exfalso. apply Hfresh. change k0 with (fst (k0, v)). now apply in_map.
Qed.

Lemma dict_del_wf {A : Type} k (d : dict A) : dict_wf d -> dict_wf (dict_del k d).
Proof.
  unfold dict_wf. rewrite dict_keys_del. apply NoDup_filter.
Qed.

Lemma _parse_params_loop_first_raise e r after :
  _parse_param_type (_FunctionParam.typing r) = Raise e ->
  forall before schema_params,
    Forall mappable before ->
    _parse_params_loop (before ++ r :: after) schema_params = Raise e.
Proof.
  intros Hr.
  induction before as [|r0 before IH]; intros acc Hall; simpl.
  - now rewrite Hr.
  - inversion Hall as [|? ? H0 Hrest]; subst. unfold mappable in H0.
    destruct (_parse_param_type (_FunctionParam.typing r0)); [|discriminate].
    simpl. now apply IH.
Qed.

Lemma key_by_arg_name_last before p after :
  (forall q, In q after ->
             docstring_parser.arg_name q <> docstring_parser.arg_name p) ->
  dict_get (docstring_parser.arg_name p)
    (key_by_arg_name (before ++ p :: after)) = Some p.
Proof.
  intros Hafter. unfold key_by_arg_name.
  rewrite fold_left_app. simpl.
  set (acc := dict_set (docstring_parser.arg_name p) p _).
  assert (Hacc : dict_get (docstring_parser.arg_name p) acc = Some p).
  { unfold acc. now rewrite dict_get_set, String.eqb_refl. }
  clearbody acc. revert acc Hacc.
  induction after as [|q after IH]; intros acc Hacc; simpl; [assumption|].
  apply IH.
  - intros q' Hq'. apply Hafter. now right.
  - rewrite dict_get_set.
    destruct (String.eqb_spec (docstring_parser.arg_name p)
                (docstring_parser.arg_name q)) as [Heq|_]; [|assumption].
    exfalso. apply (Hafter q); [now left|congruence].
Qed.

Section SchemaOutcome.
Variable parse : option string -> result docstring_parser.Docstring.

(** X5.  When several hints are rejected, the exception is the one for the
    first of them in declaration order: if the annotations read
    [before], then [key : tp], then [after], the type mapper accepts every
    hint of [before] and rejects [tp], then [schema] raises the
    [ValueError] carrying [tp]. *)
Theorem schema_reports_first_rejected_hint st docstring before key tp after :
  parse (__doc__ (func (self st))) = Ok docstring ->
  dict_wf (__annotations__ (func (self st))) ->
  __annotations__ (func (self st)) = before ++ (key, tp) :: after ->
  key <> "return" ->
  (forall k t, In (k, t) before ->
               k = "return" \/ is_ok (_parse_param_type t) = true) ->
  is_ok (_parse_param_type tp) = false ->
  fst (schema parse st) = Raise (ValueError unexpected_type tp).
Proof.
  intros Hp Hwf Hsplit Hne Hbefore Hbad.
  destruct (schema_parsed parse st Hp) as (records & Hrun & Hnames & Hall).
  rewrite Hrun. unfold _parse_params. simpl fst.
  set (rest := dict_del "return" (__annotations__ (func (self st)))) in *.
  assert (Hrest : rest = dict_del "return" before
                         ++ (key, tp) :: dict_del "return" after).
  { unfold rest, dict_del. rewrite Hsplit, filter_app. f_equal.
    cbn [filter fst].
    destruct (String.eqb_spec "return" key); [congruence|reflexivity]. }
  assert (Hwf' : dict_wf rest) by now apply dict_del_wf.
  rewrite Hrest in Hnames. unfold dict_keys in Hnames.
  rewrite map_app in Hnames. simpl in Hnames.
  apply map_eq_app in Hnames.
  destruct Hnames as (rs1 & rs2' & -> & Hn1 & Hn2).
  apply map_eq_cons in Hn2. destruct Hn2 as (r & rs2 & -> & Hr & Hn2).
  rewrite Forall_forall in Hall.
  assert (Htp : _FunctionParam.typing r = tp).
  { destruct (Hall r) as [Hget _]; [apply in_or_app; right; now left|].
    rewrite Hr in Hget.
    rewrite (@dict_get_of_entry _ rest key tp) in Hget;
      [congruence|assumption|].
    rewrite Hrest. apply in_or_app. right. now left. }
  assert (Hraise : _parse_param_type (_FunctionParam.typing r)
                   = Raise (ValueError unexpected_type tp)).
  { rewrite Htp.
    destruct (_parse_param_type tp) as [frag|e] eqn:E; [discriminate|].
    now rewrite (_parse_param_type_raises _ E). }
  rewrite (@_parse_params_loop_first_raise _ r rs2 Hraise rs1 []);
    [reflexivity|].
  rewrite Forall_forall. intros r1 Hr1.
  destruct (Hall r1) as [Hget _]; [apply in_or_app; now left|].
  assert (Hk : In (_FunctionParam.name r1) (map fst (dict_del "return" before)))
    by (rewrite <- Hn1; now apply in_map).
  apply in_map_iff in Hk. destruct Hk as ([k t] & Hfst & Hent).
  simpl in Hfst. subst k.
  rewrite (@dict_get_of_entry _ rest (_FunctionParam.name r1) t) in Hget;
    [|assumption|rewrite Hrest; apply in_or_app; now left].
  inversion Hget as [Ht]. unfold mappable. rewrite <- Ht.
  unfold dict_del in Hent. apply filter_In in Hent.
  destruct Hent as [Hent Hkeep]. simpl in Hkeep.
  destruct (Hbefore _ _ Hent) as [Hret|Hok]; [|assumption].
  rewrite Hret in Hkeep. discriminate.
Qed.

(** X8.  The return hint plays no part in the outcome: two functions of the
    same name and documentation whose annotations agree once the [return]
    entry is left out get the same descriptor, or the same exception. *)
Theorem return_annotation_is_ignored st1 st2 :
  __name__ (func (self st1)) = __name__ (func (self st2)) ->
  __doc__ (func (self st1)) = __doc__ (func (self st2)) ->
  dict_del "return" (__annotations__ (func (self st1)))
  = dict_del "return" (__annotations__ (func (self st2))) ->
  fst (schema parse st1) = fst (schema parse st2).
Proof.
  intros Hname Hdoc Hann. unfold schema. rewrite Hname, Hdoc.
  destruct (parse (__doc__ (func (self st2)))) as [docstring|e];
    [|reflexivity].
  cbv zeta. simpl fst.
  assert (Hx : forall a ps,
    returned (_create_function_params a ps)
    = returned (_create_function_params (dict_del "return" a) ps)).
  { intros a ps. unfold _create_function_params.
    now rewrite !dict_del_guarded, dict_del_idem. }
  now rewrite (Hx (__annotations__ (func (self st1)))),
              (Hx (__annotations__ (func (self st2)))), Hann.
Qed.
End SchemaOutcome.

(** X6.  When several documentation entries are named alike, the
    description of the last one is used: the record of a parameter whose last
    entry in the documentation is [p] carries the description of [p]. *)
Theorem last_documentation_entry_wins annotations before p after :
  In (docstring_parser.arg_name p) (dict_keys annotations) ->
  docstring_parser.arg_name p <> "return" ->
  (forall q, In q after ->
             docstring_parser.arg_name q <> docstring_parser.arg_name p) ->
  exists records,
    returned (_create_function_params annotations (before ++ p :: after))
    = Ok records
    /\ In (docstring_parser.arg_name p) (map _FunctionParam.name records)
    /\ (forall r, In r records ->
                  _FunctionParam.name r = docstring_parser.arg_name p ->
                  _FunctionParam.description r
                  = docstring_parser.description p).
Proof.
  intros Hkey Hne Hafter.
  destruct (_create_function_params_spec annotations (before ++ p :: after))
    as (records & Hrun & Hnames & Hall).
  pose proof (key_by_arg_name_last before p after Hafter) as Hlast.
  exists records. rewrite Hrun. simpl.
  split; [reflexivity|]. split.
  - rewrite Hnames, dict_keys_del, filter_In. split; [assumption|].
    destruct (String.eqb_spec "return" (docstring_parser.arg_name p));
      [congruence|reflexivity].
  - rewrite Forall_forall in Hall. intros r Hr Hname.
    destruct (Hall r Hr) as [_ Hdesc].
    rewrite Hdesc, Hname. unfold describe. now rewrite Hlast.
Qed.

(** * The shape of the descriptor *)

Lemma In_dict_set {A : Type} k v k' v' (d : dict A) :
  In (k, v) (dict_set k' v' d) -> (k, v) = (k', v') \/ In (k, v) d.
Proof.
  induction d as [|[k0 v0] d IH]; simpl.
  - intros [H|[]]. left. now symmetry.
  - destruct (String.eqb_spec k' k0) as [->|Hne]; simpl.
    + intros [H|H]; [left; now symmetry|right; now right].
    + intros [H|H]; [right; now left|].
      destruct (IH H); [now left|right; now right].
Qed.

Lemma In_keys_dict_set {A : Type} k k' v' (d : dict A) :
  In k (dict_keys (dict_set k' v' d)) <-> k = k' \/ In k (dict_keys d).
Proof.
  induction d as [|[k0 v0] d IH]; simpl.
  - intuition.
  - destruct (String.eqb_spec k' k0) as [->|Hne]; simpl.
    + intuition.
    + rewrite IH. intuition.
Qed.

Lemma dict_set_wf {A : Type} k v (d : dict A) :
  dict_wf d -> dict_wf (dict_set k v d).
Proof.
  unfold dict_wf.
  induction d as [|[k0 v0] d IH]; simpl.
  - intros _. constructor; [tauto|constructor].
  - intros Hnd. inversion Hnd as [|? ? Hfresh Hrest]; subst.
    destruct (String.eqb_spec k k0) as [->|Hne]; simpl.
    + now constructor.
    + constructor; [|now apply IH].
      rewrite (In_keys_dict_set k0 k v d). intros [Heq|Hin];
        [congruence|contradiction].
Qed.

(** The two shapes of the fragments of the type mapper. *)
Lemma _parse_param_type_shape tp fragment :
  _parse_param_type tp = Ok fragment ->
  (exists ty, fragment = [("type", JStr ty)]
              /\ (ty = "string" \/ ty = "int" \/ ty = "float"))
  \/ (exists values,
        fragment = [("type", JStr "string"); ("enum", JList values)]).
Proof.
  unfold _parse_param_type.
  destruct (is_class tp "str");
    [intros H; inversion H; left; eexists; eauto|].
  destruct (is_class tp "int");
    [intros H; inversion H; left; eexists; eauto|].
  destruct (is_class tp "float");
    [intros H; inversion H; left; eexists; eauto 6|].
  destruct (get_args tp) as [|a args].
  - destruct tp; try discriminate.
    intros H; inversion H. right. eauto.
  - intros H; inversion H. right. eauto.
Qed.

Lemma _parse_params_loop_entries k property :
  forall params schema_params props,
    _parse_params_loop params schema_params = Ok props ->
    In (k, property) props ->
    In (k, property) schema_params
    \/ exists r fragment,
         In r params /\ _FunctionParam.name r = k
         /\ _parse_param_type (_FunctionParam.typing r) = Ok fragment
         /\ property = property_of fragment r.
Proof.
  induction params as [|r rest IH]; intros acc props; simpl.
  - intros H Hin. inversion H; subst. now left.
  - destruct (_parse_param_type (_FunctionParam.typing r)) as [frag|] eqn:E;
      simpl; [|discriminate].
    intros Hrun Hin.
    destruct (IH _ _ Hrun Hin) as [Hacc|(r' & frag' & Hr' & Hn & Hp & Hv)].
    + apply In_dict_set in Hacc. destruct Hacc as [Heq|Hacc]; [|now left].
      inversion Heq; subst. right. exists r, frag. auto.
    + right. exists r', frag'. auto.
Qed.

Lemma _parse_params_loop_keeps k :
  forall params schema_params props,
    _parse_params_loop params schema_params = Ok props ->
    ~ In k (map _FunctionParam.name params) ->
    dict_get k props = dict_get k schema_params.
Proof.
  induction params as [|r rest IH]; intros acc props; simpl.
  - intros H _. now inversion H.
  - destruct (_parse_param_type (_FunctionParam.typing r)); simpl;
      [|discriminate].
    intros Hrun Hnot. rewrite (IH _ _ Hrun) by tauto.
    rewrite dict_get_set.
    destruct (String.eqb_spec k (_FunctionParam.name r)); [|reflexivity].
    exfalso. apply Hnot. now left.
Qed.

Lemma _parse_params_loop_wf :
  forall params schema_params props,
    _parse_params_loop params schema_params = Ok props ->
    dict_wf schema_params ->
    dict_wf props
    /\ (forall k, In k (dict_keys props) <->
                  In k (dict_keys schema_params)
                  \/ In k (map _FunctionParam.name params)).
Proof.
  induction params as [|r rest IH]; intros acc props; simpl.
  - intros H Hwf. inversion H; subst. split; [assumption|]. intuition.
  - destruct (_parse_param_type (_FunctionParam.typing r)); simpl;
      [|discriminate].
    intros Hrun Hwf.
    destruct (IH _ _ Hrun (@dict_set_wf _ _ _ _ Hwf)) as [Hwf' Hkeys].
    split; [assumption|].
    intros k. rewrite Hkeys, In_keys_dict_set. intuition.
Qed.

(** X11.  [_parse_params] on any list of records, also one that names a
    parameter twice: when it returns, [properties] holds each record name
    exactly once, and under a name the entry built from the last record of
    that name. *)
Theorem _parse_params_merges_by_name params j :
  _parse_params params = Ok j ->
  exists props,
    j = JDict [("type", JStr "object"); ("properties", JDict props)]
    /\ NoDup (dict_keys props)
    /\ (forall k, In k (dict_keys props) <->
                  In k (map _FunctionParam.name params))
    /\ (forall before r after,
          params = before ++ r :: after ->
          ~ In (_FunctionParam.name r) (map _FunctionParam.name after) ->
          exists fragment,
            _parse_param_type (_FunctionParam.typing r) = Ok fragment
            /\ dict_get (_FunctionParam.name r) props
               = Some (property_of fragment r)).
Proof.
  unfold _parse_params.
  destruct (_parse_params_loop params []) as [props|e] eqn:Hloop; simpl;
    [|discriminate].
  intros H; inversion H; subst j. exists props.
  destruct (@_parse_params_loop_wf params [] props Hloop) as [Hwf Hkeys];
    [constructor|].
  split; [reflexivity|]. split; [exact Hwf|]. split.
  - intros k. rewrite Hkeys. simpl. intuition.
  - intros before r after -> Hlast. clear Hwf Hkeys.
    revert Hloop. generalize (@nil (string * json)).
    induction before as [|r0 before IH]; intros acc; simpl.
    + destruct (_parse_param_type (_FunctionParam.typing r)) as [frag|];
        simpl; [|discriminate].
      intros Hrun. exists frag. split; [reflexivity|].
      rewrite (@_parse_params_loop_keeps _ _ _ _ Hrun Hlast), dict_get_set.
      now rewrite String.eqb_refl.
    + destruct (_parse_param_type (_FunctionParam.typing r0)); simpl;
        [|discriminate].
      apply IH.
Qed.

Lemma _parse_params_merges_by_name_witness :
  exists props,
    JDict [("type", JStr "object");
           ("properties",
            JDict [("a", JDict [("type", JStr "string");
                                ("description", JStr "second")])])]
    = JDict [("type", JStr "object"); ("properties", JDict props)]
    /\ NoDup (dict_keys props)
    /\ (forall k, In k (dict_keys props) <->
                  In k (map _FunctionParam.name
                          [_FunctionParam.mk "a" int_t "first";
                           _FunctionParam.mk "a" str_t "second"]))
    /\ (forall before r after,
          [_FunctionParam.mk "a" int_t "first";
           _FunctionParam.mk "a" str_t "second"] = before ++ r :: after ->
          ~ In (_FunctionParam.name r) (map _FunctionParam.name after) ->
          exists fragment,
            _parse_param_type (_FunctionParam.typing r) = Ok fragment
            /\ dict_get (_FunctionParam.name r) props
               = Some (property_of fragment r)).
Proof.
  apply (@_parse_params_merges_by_name
           [_FunctionParam.mk "a" int_t "first";
            _FunctionParam.mk "a" str_t "second"]).
  reflexivity.
Defined.

Lemma _create_function_params_del annotations docstring_params :
  _create_function_params (dict_del "return" annotations) docstring_params
  = _create_function_params annotations docstring_params.
Proof.
  unfold _create_function_params.
  now rewrite !dict_del_guarded, dict_del_idem.
Qed.

Section DescriptorShape.
Variable parse : option string -> result docstring_parser.Docstring.

Lemma schema_outcome_and_state st docstring :
  parse (__doc__ (func (self st))) = Ok docstring ->
  fst (schema parse st)
  = (function_params <-
       returned (_create_function_params (__annotations__ (func (self st)))
                   (docstring_parser.params docstring)) ;;
     parameters <- _parse_params function_params ;;
     Ok (descriptor (func (self st)) docstring parameters))
  /\ snd (schema parse st) = extracted st docstring.
Proof.
  intros Hp. unfold schema. rewrite Hp. cbv zeta. simpl fst. simpl snd.
  split; [reflexivity|].
  destruct (_create_function_params_spec
              (__annotations__ (func (self st)))
              (docstring_parser.params docstring)) as (recs & Hx & _).
  now rewrite Hx.
Qed.

(** X7.  Every entry of [properties] in a descriptor [schema] returns is a
    dictionary with the keys [type] and [description], in that order, where
    [type] is one of [string], [int] and [float], or with the keys [type],
    [enum] and [description], where [type] is [string]. *)
Theorem properties_have_fixed_shape st d st' :
  schema parse st = (Ok d, st') ->
  exists props,
    properties_of d = Some props
    /\ forall k property,
         In (k, property) props ->
         exists desc,
           (exists ty,
              property = JDict [("type", JStr ty);
                                ("description", JStr desc)]
              /\ (ty = "string" \/ ty = "int" \/ ty = "float"))
           \/ (exists values,
                 property = JDict [("type", JStr "string");
                                   ("enum", JList values);
                                   ("description", JStr desc)]).
Proof.
  intros Hrun.
  destruct (schema_ok_inv parse st Hrun)
    as (docstring & records & props & _ & _ & _ & _ & Hloop & ->).
  exists props. split; [reflexivity|].
  intros k property Hin.
  destruct (@_parse_params_loop_entries _ _ _ _ _ Hloop Hin)
    as [[]|(r & frag & _ & _ & Hfrag & ->)].
  exists (_FunctionParam.description r).
  destruct (@_parse_param_type_shape _ _ Hfrag) as [(ty & -> & Hty)|(vs & ->)].
  - left. exists ty. split; [reflexivity|assumption].
  - right. exists vs. reflexivity.
Qed.

(** X9.  The accessors agree with the descriptor: in a descriptor [schema]
    returns, [type] is [function], the [name] is what [name()] returns and
    the [description] is what [description()] returns, before the call of
    [schema] and after it. *)
Theorem accessors_agree_with_descriptor st d st' :
  schema parse st = (Ok d, st') ->
  json_get "type" d = Some (JStr "function")
  /\ exists fn n short,
       json_get "function" d = Some fn
       /\ fst (name st) = Ok n /\ fst (name st') = Ok n
       /\ fst (description parse st) = Ok short
       /\ fst (description parse st') = Ok short
       /\ json_get "name" fn = Some (JStr n)
       /\ json_get "description" fn = Some (json_of_option short).
Proof.
  intros Hrun.
  destruct (schema_ok_inv parse st Hrun)
    as (docstring & records & props & Hp & -> & _ & _ & _ & ->).
  split; [reflexivity|].
  eexists _, (__name__ (func (self st))),
          (docstring_parser.short_description docstring).
  unfold description, name. simpl. rewrite Hp.
  repeat split; reflexivity.
Qed.

(** X10.  Calling [schema] again on what a first call left has the outcome
    of the first call, a descriptor or an exception, leaves the wrapped
    function as the first call left it, and logs once more what the first
    call logged. *)
Theorem schema_again_same_outcome_and_warnings st :
  let st1 := snd (schema parse st) in
  let st2 := snd (schema parse st1) in
  fst (schema parse st1) = fst (schema parse st)
  /\ self st2 = self st1
  /\ exists logged,
       logging st1 = logging st ++ logged
       /\ logging st2 = logging st1 ++ logged.
Proof.
  cbv zeta.
  destruct (parse (__doc__ (func (self st)))) as [docstring|e] eqn:Hp.
  - destruct (schema_outcome_and_state st Hp) as [Hfst Hsnd].
    rewrite Hsnd.
    assert (Hp1 : parse (__doc__ (func (self (extracted st docstring))))
                  = Ok docstring) by exact Hp.
    destruct (schema_outcome_and_state (extracted st docstring) Hp1)
      as [Hfst1 Hsnd1].
    rewrite Hfst, Hfst1, Hsnd1. simpl.
    rewrite _create_function_params_del, dict_del_idem.
    split; [reflexivity|]. split; [reflexivity|].
    eexists. split; reflexivity.
  - rewrite (schema_parse_raises parse st Hp). simpl.
    rewrite (schema_parse_raises parse st Hp). simpl.
    split; [reflexivity|]. split; [reflexivity|].
    exists []. now rewrite app_nil_r.
Qed.
End DescriptorShape.

(** * What the adapter can answer *)

(** X12.  Text the adapter returns is never made up: it is the textual
    representation of what the wrapped function returned (a string result
    itself), or the empty string, and then the result is an object whose
    [__str__] attribute is false. *)
Theorem call_returns_text_of_result_or_fallback st args kwargs t :
  fst (__call__ args kwargs st) = Ok t ->
  exists v,
    __code__ (func (self st)) args kwargs = Ok v
    /\ (str v = Ok t
        \/ ((exists cls shown, v = VInstance cls StrFalsy shown) /\ t = "")).
Proof.
  unfold __call__. cbn [fst].
  destruct (__code__ (func (self st)) args kwargs) as [v|e]; cbn [bind];
    [|discriminate].
  intros H. exists v. split; [reflexivity|].
  destruct v as [| s | z | b | cls [| |] shown];
    cbn [getattr__str__ bind] in H;
    try (left; exact H); try discriminate.
  inversion H. right. eauto.
Qed.

Lemma call_returns_text_of_result_or_fallback_witness :
  exists v,
    __code__ (func (self (start my_func))) [VInt 1; VStr "r"] [] = Ok v
    /\ (str v = Ok "5"
        \/ ((exists cls shown, v = VInstance cls StrFalsy shown)
            /\ "5" = "")).
Proof.
  apply (@call_returns_text_of_result_or_fallback (start my_func)
           [VInt 1; VStr "r"] [] "5").
  reflexivity.
Defined.

(** X13.  The adapter raises only what the wrapped function raised, or what
    came of a result that is an integer or an instance of a user class:
    what looking up [__str__] on it raised or, the attribute being true,
    what [str] raised on it.  It does not raise on a result that is [None],
    a string or a boolean. *)
Theorem call_raises_only_from_callable_or_str st args kwargs e :
  fst (__call__ args kwargs st) = Raise e ->
  __code__ (func (self st)) args kwargs = Raise e
  \/ exists v,
       __code__ (func (self st)) args kwargs = Ok v
       /\ ((exists z, v = VInt z)
           \/ (exists cls attr shown, v = VInstance cls attr shown))
       /\ (getattr__str__ v = Raise e
           \/ (getattr__str__ v = Ok true /\ str v = Raise e)).
Proof.
  unfold __call__. cbn [fst].
  destruct (__code__ (func (self st)) args kwargs) as [v|e']; cbn [bind].
  - intros H. right. exists v. split; [reflexivity|].
    destruct v as [| s | z | [|] | cls [| |] shown];
      cbn [getattr__str__ bind] in H; try discriminate.
    + split; [left; eauto|]. right. split; [reflexivity|exact H].
    + split; [right; eauto|]. right. split; [reflexivity|exact H].
    + split; [right; eauto|]. left. inversion H. reflexivity.
  - intros H. inversion H. now left.
Qed.

Lemma call_raises_only_from_callable_or_str_witness :
  __code__ (func (self (start returns_unshowable))) [] []
  = Raise (Exception "__str__")
  \/ exists v,
       __code__ (func (self (start returns_unshowable))) [] [] = Ok v
       /\ ((exists z, v = VInt z)
           \/ (exists cls attr shown, v = VInstance cls attr shown))
       /\ (getattr__str__ v = Raise (Exception "__str__")
           \/ (getattr__str__ v = Ok true
               /\ str v = Raise (Exception "__str__"))).
Proof.
  apply (@call_raises_only_from_callable_or_str (start returns_unshowable)
           [] [] (Exception "__str__")).
  reflexivity.
Defined.

(** * The further statements on the functions of the test suite *)

Lemma schema_of_parameterless_witness :
  exists st',
    schema (parse_known []) (start no_param_function)
    = (Ok (JDict
             [("type", JStr "function");
              ("function",
               JDict [("name", JStr "no_param_function");
                      ("description", JNone);
                      ("parameters",
                       JDict [("type", JStr "object");
                              ("properties", JDict [])])])]),
       st')
    /\ logging st' = [].
Proof.
  apply (@schema_of_parameterless (parse_known []) (start no_param_function)
           {| docstring_parser.short_description := None;
              docstring_parser.params := [] |}).
  - reflexivity.
  - simpl. intros k [H|[]]. now symmetry.
Defined.

Lemma schema_effects_whatever_the_outcome_witness :
  __annotations__ (func (self (snd (schema (parse_known []) (start three)))))
  = [("a", int_t); ("b", Class "bool"); ("c", Class "dict")]
  /\ logging (snd (schema (parse_known []) (start three)))
     = map no_docstring_warning ["a"; "b"; "c"].
Proof.
  apply (@schema_effects_whatever_the_outcome (parse_known []) (start three)
           {| docstring_parser.short_description := None;
              docstring_parser.params := [] |}).
  reflexivity.
Defined.

Lemma schema_raises_only_witness :
  parse_known [] (__doc__ (func (self (start takes_bool))))
  = Raise (ValueError unexpected_type (Class "bool"))
  \/ exists key tp,
       key <> "return"
       /\ dict_get key (__annotations__ (func (self (start takes_bool))))
          = Some tp
       /\ _parse_param_type tp
          = Raise (ValueError unexpected_type (Class "bool"))
       /\ ValueError unexpected_type (Class "bool")
          = ValueError unexpected_type tp.
Proof.
  apply (@schema_raises_only (parse_known []) (start takes_bool)).
  reflexivity.
Defined.

Lemma schema_fails_iff_unmappable_witness :
  is_ok (fst (schema (parse_known []) (start takes_bool))) = false <->
  exists key tp,
    key <> "return"
    /\ dict_get key (__annotations__ (func (self (start takes_bool))))
       = Some tp
    /\ is_ok (_parse_param_type tp) = false.
Proof.
  apply (@schema_fails_iff_unmappable (parse_known []) (start takes_bool)
           {| docstring_parser.short_description := None;
              docstring_parser.params := [] |}).
  reflexivity.
Defined.

Lemma schema_reports_first_rejected_hint_witness :
  fst (schema (parse_known []) (start three))
  = Raise (ValueError unexpected_type (Class "bool")).
Proof.
  apply (@schema_reports_first_rejected_hint (parse_known []) (start three)
           {| docstring_parser.short_description := None;
              docstring_parser.params := [] |}
           [("a", int_t)] "b" (Class "bool")
           [("c", Class "dict"); ("return", Class "dict")]).
  - reflexivity.
  - unfold dict_wf. simpl.
    repeat constructor; simpl; intuition discriminate.
  - reflexivity.
  - discriminate.
  - intros k t [H|[]]. inversion H. now right.
  - reflexivity.
Defined.

Lemma return_annotation_is_ignored_witness :
  fst (schema (parse_known my_docs) (start my_func))
  = fst (schema (parse_known my_docs) (start my_func_returning_dict)).
Proof.
  apply return_annotation_is_ignored; reflexivity.
Defined.

Lemma last_documentation_entry_wins_witness :
  exists records,
    returned
      (_create_function_params (__annotations__ my_func)
         (docstring_parser.params
            (documented "" [("a", "first"); ("a", "second"); ("b", "b")])))
    = Ok records
    /\ In "a" (map _FunctionParam.name records)
    /\ (forall r, In r records -> _FunctionParam.name r = "a" ->
                  _FunctionParam.description r = "second").
Proof.
  apply (@last_documentation_entry_wins (__annotations__ my_func)
           [{| docstring_parser.arg_name := "a";
               docstring_parser.description := "first" |}]
           {| docstring_parser.arg_name := "a";
              docstring_parser.description := "second" |}
           [{| docstring_parser.arg_name := "b";
               docstring_parser.description := "b" |}]).
  - simpl. auto.
  - discriminate.
  - intros q [<-|[]]. discriminate.
Defined.

Lemma properties_have_fixed_shape_witness :
  exists props,
    properties_of (expected_schema "This is my func.") = Some props
    /\ forall k property,
         In (k, property) props ->
         exists desc,
           (exists ty,
              property = JDict [("type", JStr ty);
                                ("description", JStr desc)]
              /\ (ty = "string" \/ ty = "int" \/ ty = "float"))
           \/ (exists values,
                 property = JDict [("type", JStr "string");
                                   ("enum", JList values);
                                   ("description", JStr desc)]).
Proof.
  apply (@properties_have_fixed_shape (parse_known my_docs) (start my_func)
           (expected_schema "This is my func.")
           (snd (schema (parse_known my_docs) (start my_func)))).
  reflexivity.
Defined.

Lemma accessors_agree_with_descriptor_witness :
  json_get "type" (expected_schema "This is my func.")
  = Some (JStr "function")
  /\ exists fn n short,
       json_get "function" (expected_schema "This is my func.") = Some fn
       /\ fst (name (start my_func)) = Ok n
       /\ fst (name (snd (schema (parse_known my_docs) (start my_func))))
          = Ok n
       /\ fst (description (parse_known my_docs) (start my_func)) = Ok short
       /\ fst (description (parse_known my_docs)
                 (snd (schema (parse_known my_docs) (start my_func))))
          = Ok short
       /\ json_get "name" fn = Some (JStr n)
       /\ json_get "description" fn = Some (json_of_option short).
Proof.
  apply (@accessors_agree_with_descriptor (parse_known my_docs)
           (start my_func) (expected_schema "This is my func.")
           (snd (schema (parse_known my_docs) (start my_func)))).
  reflexivity.
Defined.

(** * Documentation and failure *)

Lemma _parse_params_loop_raise_by_typing :
  forall params1 params2,
    map _FunctionParam.typing params1 = map _FunctionParam.typing params2 ->
    forall schema_params1 schema_params2 e,
      _parse_params_loop params1 schema_params1 = Raise e ->
      _parse_params_loop params2 schema_params2 = Raise e.
Proof.
  induction params1 as [|r1 rest1 IH]; intros [|r2 rest2] Hmap acc1 acc2 e;
    simpl in *; try discriminate.
  inversion Hmap as [[Hhead Htail]].
  destruct (_parse_param_type (_FunctionParam.typing r1)); simpl;
    [|trivial].
  now apply IH.
Qed.

Lemma typings_from_annotations annotations keyed records :
  Forall (extracted_from annotations keyed) records ->
  map _FunctionParam.typing records
  = flat_map (fun k => match dict_get k annotations with
                       | Some tp => [tp]
                       | None => []
                       end)
      (map _FunctionParam.name records).
Proof.
  induction 1 as [|r records [Hget _] _ IH]; simpl; [reflexivity|].
  now rewrite Hget, IH.
Qed.

(** X14.  Whether [schema] raises, and what, does not depend on the
    documentation: for two parsers that both parse the docstring, to
    whatever entries, [schema] raises an exception under one exactly when
    it raises that exception under the other. *)
Theorem documentation_does_not_change_failure parse1 parse2 st d1 d2 e :
  parse1 (__doc__ (func (self st))) = Ok d1 ->
  parse2 (__doc__ (func (self st))) = Ok d2 ->
  fst (schema parse1 st) = Raise e <-> fst (schema parse2 st) = Raise e.
Proof.
  assert (Hone : forall p p' ds ds',
    p (__doc__ (func (self st))) = Ok ds ->
    p' (__doc__ (func (self st))) = Ok ds' ->
    fst (schema p st) = Raise e -> fst (schema p' st) = Raise e).
  { intros p p' ds ds' Hp Hp'.
    destruct (schema_parsed p st Hp) as (rs & Hrun & Hnames & Hall).
    destruct (schema_parsed p' st Hp') as (rs' & Hrun' & Hnames' & Hall').
    rewrite Hrun, Hrun'. unfold _parse_params. simpl fst.
    destruct (_parse_params_loop rs []) as [props|e1] eqn:Hloop; simpl;
      [discriminate|].
    intros He. inversion He; subst e1.
    assert (Htyp : map _FunctionParam.typing rs
                   = map _FunctionParam.typing rs').
    { rewrite (typings_from_annotations Hall),
              (typings_from_annotations Hall').
      now rewrite Hnames, Hnames'. }
    now rewrite (_parse_params_loop_raise_by_typing _ _ Htyp [] [] Hloop). }
  intros H1 H2. split; eauto.
Qed.

Lemma documentation_does_not_change_failure_witness :
  fst (schema (parse_known []) (start takes_bool))
  = Raise (ValueError unexpected_type (Class "bool"))
  <-> fst (schema
             (fun _ => Ok (documented "Takes a flag." [("flag", "A flag.")]))
             (start takes_bool))
      = Raise (ValueError unexpected_type (Class "bool")).
Proof.
  apply (@documentation_does_not_change_failure (parse_known [])
           (fun _ => Ok (documented "Takes a flag." [("flag", "A flag.")]))
           (start takes_bool)
           {| docstring_parser.short_description := None;
              docstring_parser.params := [] |}
           (documented "Takes a flag." [("flag", "A flag.")])).
  - reflexivity.
  - reflexivity.
Defined.
